(** * HelperInfra: date resolution from pattern strings

    A shallow embedding of [Momemtum Template/HelperInfra.py] and of the
    parts of Python's [datetime] and [calendar] modules it calls, followed
    by the properties of the date resolver [get_target_date] and of the
    helpers [last_friday_of_previous_month] and [last_thursday].

    Python integers are unbounded, so they are [Z]; [//] and [%] with a
    positive divisor are [Z.div] and [Z.modulo] (both floor).  A Python
    [str] is a [string] whose characters are the code points 0..255.
    A [datetime] is its (year, month, day); the time-of-day fields are never
    read by the code and are zero in every value it builds. *)

From Equations Require Import Equations.
From Stdlib Require Import ZArith List String Ascii Bool Lia Sorted.
Import ListNotations.

Local Open Scope Z_scope.

(** ** Exceptions *)

(** The text carried by a [ValueError].  The source tells its failures apart
    only by this text, so each constructor stands for one message. *)
Inductive msg : Type :=
| QueryTypeMsg               (* "Query type must be 1 or 2" *)
| UnpackMsg (got : nat)      (* unpacking into three names a list of [got] values *)
| IntLiteralMsg (s : string) (* "invalid literal for int() with base 10: ..." *)
| IntDigitsMsg               (* "Exceeds the limit (4300 digits) for integer string conversion ..." *)
| DayMsg                     (* "Day must be between 1-5 (Mon-Fri)" *)
| WeekMsg                    (* "Week must be 1, 2, 3, or L" *)
| SuffixMsg                  (* "Type 2 pattern must end with F (First) or L (Last)" *)
| DateRangeMsg               (* "year/month/day ... is out of range", from datetime(...) *)
| IllegalMonthMsg            (* calendar.IllegalMonthError, a ValueError *)
| Type1Msg (inner : msg)     (* "Invalid Type 1 pattern format. Error: " ++ str(e) *)
| Type2Msg (inner : msg).    (* "Invalid Type 2 pattern format. Error: " ++ str(e) *)

Inductive exn : Type :=
| ValueError (m : msg)
| IndexError
| OverflowError.

Inductive result (A : Type) : Type :=
| Ok (a : A)
| Raise (e : exn).

Arguments Ok {A} a.
Arguments Raise {A} e.

Definition bind {A B : Type} (r : result A) (k : A -> result B) : result B :=
  match r with
  | Ok a => k a
  | Raise e => Raise e
  end.

Notation "x <- r ;; k" := (bind r (fun x => k))
  (at level 61, r at next level, right associativity).
Notation "' p <- r ;; k" := (bind r (fun x => let 'p := x in k))
  (at level 61, p pattern, r at next level, right associativity).

(** [try: body  except ValueError as e: raise ValueError(wrap(str(e)))]. *)
Definition try_except_ValueError {A : Type} (body : result A) (wrap : msg -> msg)
  : result A :=
  match body with
  | Raise (ValueError m) => Raise (ValueError (wrap m))
  | other => other
  end.

Definition is_ok {A : Type} (r : result A) : bool :=
  match r with Ok _ => true | Raise _ => false end.

(** ** Python built-ins used by the source *)

(** [l[i]] on a list: a negative index counts from the end, an index out of
    range raises [IndexError]. *)
Definition getitem (l : list Z) (i : Z) : result Z :=
  let n := Z.of_nat (List.length l) in
  let j := if i <? 0 then i + n else i in
  if (0 <=? j) && (j <? n) then Ok (nth (Z.to_nat j) l 0) else Raise IndexError.

(** [s.split(sep)] for a one-character separator. *)
Fixpoint split (sep : ascii) (s : string) : list string :=
  match s with
  | EmptyString => [EmptyString]
  | String c s' =>
      if Ascii.eqb c sep then EmptyString :: split sep s'
      else match split sep s' with
           | w :: ws => String c w :: ws
           | [] => [String c EmptyString]
           end
  end.

(** [a, b, c = l]. *)
Definition unpack3 (l : list string) : result (string * string * string) :=
  match l with
  | [a; b; c] => Ok (a, b, c)
  | _ => Raise (ValueError (UnpackMsg (List.length l)))
  end.

Fixpoint last_char (s : string) : option ascii :=
  match s with
  | EmptyString => None
  | String c EmptyString => Some c
  | String _ s' => last_char s'
  end.

(** [s.endswith(c)] for a one-character suffix. *)
Definition endswith (s : string) (c : ascii) : bool :=
  match last_char s with
  | Some d => Ascii.eqb d c
  | None => false
  end.

(** [s[:-1]]. *)
Fixpoint drop_last (s : string) : string :=
  match s with
  | EmptyString => EmptyString
  | String _ EmptyString => EmptyString
  | String c s' => String c (drop_last s')
  end.

(** Whitespace as [int] sees it: TAB..CR and the space, and past ASCII the
    next-line and no-break-space characters. *)
Definition is_space (c : ascii) : bool :=
  let n := nat_of_ascii c in
  ((9 <=? n) && (n <=? 13) || (n =? 32) || (n =? 133) || (n =? 160))%nat.

Definition digit_val (c : ascii) : option Z :=
  let n := nat_of_ascii c in
  if ((48 <=? n) && (n <=? 57))%nat then Some (Z.of_nat n - 48) else None.

Fixpoint lstrip (s : string) : string :=
  match s with
  | String c s' => if is_space c then lstrip s' else s
  | EmptyString => s
  end.

Fixpoint all_space (s : string) : bool :=
  match s with
  | String c s' => is_space c && all_space s'
  | EmptyString => true
  end.

(** [sys.int_max_str_digits], at its default; 0 would switch the limit off. *)
Definition int_max_str_digits : nat := 4300.

(** The run of digits after the first one: each is a digit or one underscore
    followed by a digit.  Gives the value, the number of digits and the text
    after the run, or nothing for a doubled or trailing underscore. *)
Fixpoint scan_digits (acc : Z) (digits : nat) (s : string)
  : option (Z * nat * string) :=
  match s with
  | EmptyString => Some (acc, digits, s)
  | String c s' =>
      match digit_val c with
      | Some d => scan_digits (10 * acc + d) (S digits) s'
      | None =>
          if Ascii.eqb c "_" then
            match s' with
            | String c' s'' =>
                match digit_val c' with
                | Some d => scan_digits (10 * acc + d) (S digits) s''
                | None => None
                end
            | EmptyString => None
            end
          else Some (acc, digits, s)
      end
  end.

(** [int(s)]: optional whitespace, an optional sign, decimal digits with
    single underscores between them, optional whitespace; more digits than
    [int_max_str_digits] are refused before the rest of the text is looked
    at. *)
Definition int_ (s : string) : result Z :=
  let s1 := lstrip s in
  let '(neg, s2) :=
    match s1 with
    | String "-" r => (true, r)
    | String "+" r => (false, r)
    | _ => (false, s1)
    end in
  match s2 with
  | String c r =>
      match digit_val c with
      | Some d =>
          match scan_digits d 1 r with
          | Some (v, digits, rest) =>
              if ((0 <? int_max_str_digits) && (int_max_str_digits <? digits))%nat
              then Raise (ValueError IntDigitsMsg)
              else if all_space rest then Ok (if neg then - v else v)
              else Raise (ValueError (IntLiteralMsg s))
          | None => Raise (ValueError (IntLiteralMsg s))
          end
      | None => Raise (ValueError (IntLiteralMsg s))
      end
  | EmptyString => Raise (ValueError (IntLiteralMsg s))
  end.

(** [range(start, stop)]. *)
Definition range (start stop : Z) : list Z :=
  map (fun k => start + Z.of_nat k) (seq 0 (Z.to_nat (stop - start))).

(** ** The [datetime] module *)

Definition MINYEAR : Z := 1.
Definition MAXYEAR : Z := 9999.
Definition MAXORDINAL : Z := 3652059.

Definition is_leap (year : Z) : bool :=
  (year mod 4 =? 0) && (negb (year mod 100 =? 0) || (year mod 400 =? 0)).

Definition days_before_year (year : Z) : Z :=
  let y := year - 1 in
  y * 365 + y / 4 - y / 100 + y / 400.

Definition DAYS_IN_MONTH (month : Z) : Z :=
  match month with
  | 1 => 31 | 2 => 28 | 3 => 31 | 4 => 30 | 5 => 31 | 6 => 30
  | 7 => 31 | 8 => 31 | 9 => 30 | 10 => 31 | 11 => 30 | 12 => 31
  | _ => -1
  end.

Definition DAYS_BEFORE_MONTH (month : Z) : Z :=
  match month with
  | 1 => 0 | 2 => 31 | 3 => 59 | 4 => 90 | 5 => 120 | 6 => 151
  | 7 => 181 | 8 => 212 | 9 => 243 | 10 => 273 | 11 => 304 | 12 => 334
  | _ => -1
  end.

Definition days_in_month (year month : Z) : Z :=
  if (month =? 2) && is_leap year then 29 else DAYS_IN_MONTH month.

Definition days_before_month (year month : Z) : Z :=
  DAYS_BEFORE_MONTH month + (if (month >? 2) && is_leap year then 1 else 0).

Definition ymd2ord (year month day : Z) : Z :=
  days_before_year year + days_before_month year month + day.

Definition DI400Y : Z := 146097.
Definition DI100Y : Z := 36524.
Definition DI4Y : Z := 1461.

(** The inverse of [ymd2ord], as [datetime] computes it. *)
Definition ord2ymd (n : Z) : Z * Z * Z :=
  let n := n - 1 in
  let n400 := n / DI400Y in
  let n := n mod DI400Y in
  let year := n400 * 400 + 1 in
  let n100 := n / DI100Y in
  let n := n mod DI100Y in
  let n4 := n / DI4Y in
  let n := n mod DI4Y in
  let n1 := n / 365 in
  let n := n mod 365 in
  let year := year + n100 * 100 + n4 * 4 + n1 in
  if (n1 =? 4) || (n100 =? 4) then (year - 1, 12, 31)
  else
    let leapyear := (n1 =? 3) && (negb (n4 =? 24) || (n100 =? 3)) in
    let month := Z.shiftr (n + 50) 5 in
    let preceding :=
      DAYS_BEFORE_MONTH month + (if (month >? 2) && leapyear then 1 else 0) in
    let '(month, preceding) :=
      if preceding >? n then
        (month - 1,
         preceding -
           (DAYS_IN_MONTH (month - 1)
            + (if (month - 1 =? 2) && leapyear then 1 else 0)))
      else (month, preceding) in
    (year, month, n - preceding + 1).

(** The attributes [.year], [.month] and [.day]. *)
Record datetime : Type := mk_datetime { dt_year : Z; dt_month : Z; dt_day : Z }.

(** The constructor of [datetime] reads each argument as a C [int]. *)
Definition C_INT_MIN : Z := -2147483648.
Definition C_INT_MAX : Z := 2147483647.

Definition fits_c_int (z : Z) : bool := (C_INT_MIN <=? z) && (z <=? C_INT_MAX).

(** [datetime(year, month, day)]: an argument that does not fit a C [int]
    raises [OverflowError]; then the constructor checks the fields. *)
Definition datetime_new (y m d : Z) : result datetime :=
  if negb (fits_c_int y && fits_c_int m && fits_c_int d) then Raise OverflowError
  else if negb ((MINYEAR <=? y) && (y <=? MAXYEAR)) then Raise (ValueError DateRangeMsg)
  else if negb ((1 <=? m) && (m <=? 12)) then Raise (ValueError DateRangeMsg)
  else if negb ((1 <=? d) && (d <=? days_in_month y m)) then
         Raise (ValueError DateRangeMsg)
  else Ok (mk_datetime y m d).

(** The values the constructor lets through. *)
Definition valid_datetime (dt : datetime) : Prop :=
  MINYEAR <= dt_year dt <= MAXYEAR /\ 1 <= dt_month dt <= 12 /\
  1 <= dt_day dt <= days_in_month (dt_year dt) (dt_month dt).

Definition toordinal (dt : datetime) : Z := ymd2ord (dt_year dt) (dt_month dt) (dt_day dt).

(** [dt.weekday()]: Monday is 0, Sunday is 6. *)
Definition weekday (dt : datetime) : Z := (toordinal dt + 6) mod 7.

(** [dt.replace(day=d)]. *)
Definition replace_day (dt : datetime) (d : Z) : result datetime :=
  datetime_new (dt_year dt) (dt_month dt) d.

(** [dt + timedelta(days=k)]. *)
Definition add_days (dt : datetime) (k : Z) : result datetime :=
  let days := toordinal dt + k in
  if (0 <? days) && (days <=? MAXORDINAL) then
    let '(y, m, d) := ord2ymd days in Ok (mk_datetime y m d)
  else Raise OverflowError.

(** [dt - timedelta(days=k)]. *)
Definition sub_days (dt : datetime) (k : Z) : result datetime := add_days dt (- k).

(** ** The [calendar] module *)

Definition isleap (year : Z) : bool :=
  (year mod 4 =? 0) && (negb (year mod 100 =? 0) || (year mod 400 =? 0)).

Definition mdays (month : Z) : Z :=
  match month with
  | 1 => 31 | 2 => 28 | 3 => 31 | 4 => 30 | 5 => 31 | 6 => 30
  | 7 => 31 | 8 => 31 | 9 => 30 | 10 => 31 | 11 => 30 | 12 => 31
  | _ => 0
  end.

(** [calendar.weekday]: a year outside [datetime]'s range is first moved
    into the 400-year cycle starting at 2000. *)
Definition calendar_weekday (year month day : Z) : result Z :=
  let year :=
    if negb ((MINYEAR <=? year) && (year <=? MAXYEAR)) then 2000 + year mod 400
    else year in
  d <- datetime_new year month day ;;
  Ok (weekday d).

(** [calendar.monthrange]: weekday of day 1 and number of days. *)
Definition monthrange (year month : Z) : result (Z * Z) :=
  if negb ((1 <=? month) && (month <=? 12)) then Raise (ValueError IllegalMonthMsg)
  else
    day1 <- calendar_weekday year month 1 ;;
    let ndays := mdays month + (if (month =? 2) && isleap year then 1 else 0) in
    Ok (day1, ndays).

(** The flat day sequence of the month grid, Monday first: zeros before day 1
    and after the last day fill the outer weeks. *)
Definition itermonthdays (day1 ndays : Z) : list Z :=
  let days_before := (day1 - 0) mod 7 in
  let days_after := (0 - day1 - ndays) mod 7 in
  repeat 0 (Z.to_nat days_before) ++ range 1 (ndays + 1)
    ++ repeat 0 (Z.to_nat days_after).

(** [[days[i:i+7] for i in range(0, len(days), 7)]]. *)
Definition weeks_of (days : list Z) : list (list Z) :=
  map (fun k => firstn 7 (skipn (7 * k) days))
      (seq 0 ((List.length days + 6) / 7)).

(** [calendar.monthcalendar]. *)
Definition monthcalendar (year month : Z) : result (list (list Z)) :=
  '(day1, ndays) <- monthrange year month ;;
  Ok (weeks_of (itermonthdays day1 ndays)).

(** ** HelperInfra.py *)

(** The two loops of [get_adjusted_year_month]. *)
Equations? while_month_le_0 (year month : Z) : Z * Z
  by wf (Z.to_nat (1 - month)) lt :=
  while_month_le_0 year month with Z_le_gt_dec month 0 := {
    | left _ := while_month_le_0 (year - 1) (month + 12);
    | right _ := (year, month) }.
Proof. change (Z.to_nat (1 - (month + 12)) < Z.to_nat (1 - month))%nat. lia. Qed.

Equations? while_month_gt_12 (year month : Z) : Z * Z
  by wf (Z.to_nat month) lt :=
  while_month_gt_12 year month with Z_gt_le_dec month 12 := {
    | left _ := while_month_gt_12 (year + 1) (month - 12);
    | right _ := (year, month) }.
Proof. lia. Qed.

Definition get_adjusted_year_month (year month offset : Z) : Z * Z :=
  let month := month + offset in
  let '(year, month) := while_month_le_0 year month in
  while_month_gt_12 year month.

(** Lines 49-60, the [try] block of query type 1: the month offset, the
    day of week already moved to 0..4, and the week token. *)
Definition parse_type1 (pattern : string) : result (Z * Z * string) :=
  try_except_ValueError
    ('(month_offset, day_of_week, week_pos) <- unpack3 (split "/" pattern) ;;
     month_offset <- int_ month_offset ;;
     day_of_week <- int_ day_of_week ;;
     let day_of_week := day_of_week - 1 in
     if negb ((1 <=? day_of_week + 1) && (day_of_week + 1 <=? 5)) then
       Raise (ValueError DayMsg)
     else if negb (existsb (String.eqb week_pos) ["1"; "2"; "3"; "L"]%string) then
       Raise (ValueError WeekMsg)
     else Ok (month_offset, day_of_week, week_pos))
    Type1Msg.

(** Lines 70-73: the column [day_of_week] of the month grid, zeros left out. *)
Fixpoint collect_day_occurrences (c : list (list Z)) (day_of_week : Z)
    (day_occurrences : list Z) : result (list Z) :=
  match c with
  | [] => Ok day_occurrences
  | week :: rest =>
      d <- getitem week day_of_week ;;
      if negb (d =? 0) then
        collect_day_occurrences rest day_of_week (day_occurrences ++ [d])
      else collect_day_occurrences rest day_of_week day_occurrences
  end.

(** Lines 76-80: the day picked by the week token. *)
Definition select_target_day (day_occurrences : list Z) (week_pos : string)
  : result Z :=
  if String.eqb week_pos "L" then getitem day_occurrences (-1)
  else
    week_index <- int_ week_pos ;;
    let week_index := week_index - 1 in
    if Z.of_nat (List.length day_occurrences) >? week_index then
      getitem day_occurrences week_index
    else getitem day_occurrences (-1).

(** Lines 67-82: from the first day of the target month to the result. *)
Definition resolve_type1 (target_month : datetime) (day_of_week : Z)
    (week_pos : string) : result datetime :=
  c <- monthcalendar (dt_year target_month) (dt_month target_month) ;;
  day_occurrences <- collect_day_occurrences c day_of_week [] ;;
  target_day <- select_target_day day_occurrences week_pos ;;
  replace_day target_month target_day.

(** Lines 85-93, the [try] block of query type 2: the month offset and
    [is_first_day]. *)
Definition parse_type2 (pattern : string) : result (Z * bool) :=
  try_except_ValueError
    (if negb (endswith pattern "F" || endswith pattern "L") then
       Raise (ValueError SuffixMsg)
     else
       month_offset <- int_ (drop_last pattern) ;;
       let is_first_day := endswith pattern "F" in
       Ok (month_offset, is_first_day))
    Type2Msg.

Definition get_target_date (start_date : datetime) (pattern : string)
    (query_type : Z) : result datetime :=
  if negb ((query_type =? 1) || (query_type =? 2)) then
    Raise (ValueError QueryTypeMsg)
  else if query_type =? 1 then
    '(month_offset, day_of_week, week_pos) <- parse_type1 pattern ;;
    let '(year, month) :=
      get_adjusted_year_month (dt_year start_date) (dt_month start_date)
        month_offset in
    target_month <- datetime_new year month 1 ;;
    resolve_type1 target_month day_of_week week_pos
  else
    '(month_offset, is_first_day) <- parse_type2 pattern ;;
    let '(year, month) :=
      get_adjusted_year_month (dt_year start_date) (dt_month start_date)
        month_offset in
    if is_first_day then datetime_new year month 1
    else
      '(_, ndays) <- monthrange year month ;;
      datetime_new year month ndays.

Definition last_friday_of_previous_month (year month : Z) : result datetime :=
  let '(year, month) :=
    if month =? 1 then (year - 1, 12) else (year, month - 1) in
  '(_, last_day) <- monthrange year month ;;
  last_date <- datetime_new year month last_day ;;
  let offset := (weekday last_date - 3) mod 7 in
  last_thursday_date <- sub_days last_date offset ;;
  add_days last_thursday_date 1.

Definition last_thursday (year month : Z) : result datetime :=
  '(_, last_day) <- monthrange year month ;;
  last_date <- datetime_new year month last_day ;;
  let offset := (weekday last_date - 3) mod 7 in
  last_thursday_date <- sub_days last_date offset ;;
  Ok last_thursday_date.

(** ** Notions the properties are stated with *)

(** The closed form the specification gives for the month shift. *)
Definition shift_closed_form (year month offset : Z) : Z * Z :=
  let total := month - 1 + offset in
  (year + total / 12, total mod 12 + 1).

(** The previous calendar month. *)
Definition previous_month (year month : Z) : Z * Z :=
  if month =? 1 then (year - 1, 12) else (year, month - 1).

(** The days of a month that fall on a weekday, in ascending order. *)
Definition weekday_days (year month day_of_week : Z) : list Z :=
  filter (fun d => weekday (mk_datetime year month d) =? day_of_week)
         (range 1 (days_in_month year month + 1)).

(** The days whose weekday is [dow] in a month of [ndays] days that starts
    on weekday [day1]. *)
Definition column_days (day1 ndays dow : Z) : list Z :=
  filter (fun d => (day1 + d - 1) mod 7 =? dow) (range 1 (ndays + 1)).

(** The next calendar month. *)
Definition next_month (year month : Z) : Z * Z :=
  if month =? 12 then (year + 1, 1) else (year, month + 1).

(** The last step of [ord2ymd]: month and day from the 0-based day of the
    year. *)
Definition month_and_day (n : Z) (leapyear : bool) : Z * Z :=
  let month := Z.shiftr (n + 50) 5 in
  let preceding :=
    DAYS_BEFORE_MONTH month + (if (month >? 2) && leapyear then 1 else 0) in
  let '(month, preceding) :=
    if preceding >? n then
      (month - 1,
       preceding -
         (DAYS_IN_MONTH (month - 1)
          + (if (month - 1 =? 2) && leapyear then 1 else 0)))
    else (month, preceding) in
  (month, n - preceding + 1).

(** The integer a text parses to, if [int] accepts it. *)
Definition parse_int (s : string) : option Z :=
  match int_ s with
  | Ok v => Some v
  | Raise _ => None
  end.

(** What [datetime(year, ...)] raises for a year outside 1..9999. *)
Definition year_error (year : Z) : exn :=
  if fits_c_int year then ValueError DateRangeMsg else OverflowError.

(** The tokens the week field may hold. *)
Definition week_tokens : list string := ["1"; "2"; "3"; "L"]%string.

(** A well-formed pattern of type 1, with the month offset, the weekday
    1..5 and the week token it denotes. *)
Definition type1_pattern (pattern : string) (month_offset wd : Z)
    (week_pos : string) : Prop :=
  exists a b : string,
    split "/" pattern = [a; b; week_pos] /\
    parse_int a = Some month_offset /\ parse_int b = Some wd /\
    1 <= wd <= 5 /\ In week_pos week_tokens.

(** A well-formed pattern of type 2, with the month offset and the edge
    letter it denotes. *)
Definition type2_pattern (pattern : string) (month_offset : Z) (edge : ascii)
  : Prop :=
  (edge = "F"%char \/ edge = "L"%char) /\ last_char pattern = Some edge /\
  parse_int (drop_last pattern) = Some month_offset.

Definition fails {A : Type} (r : result A) : Prop := exists e : exn, r = Raise e.

(** The error kinds of the specification, read off the message of the
    [ValueError] the source raises. *)
Inductive error_kind : Type :=
| InvalidArgument | FormatError | ParseError | ValidationError.

Definition kind_of_msg (m : msg) : option error_kind :=
  match m with
  | QueryTypeMsg => Some InvalidArgument
  | UnpackMsg _ | SuffixMsg => Some FormatError
  | IntLiteralMsg _ | IntDigitsMsg => Some ParseError
  | DayMsg | WeekMsg => Some ValidationError
  | _ => None
  end.

Definition error_kind_of {A : Type} (r : result A) : option error_kind :=
  match r with
  | Raise (ValueError (Type1Msg m)) | Raise (ValueError (Type2Msg m)) => kind_of_msg m
  | Raise (ValueError m) => kind_of_msg m
  | _ => None
  end.

(** ** [get_data]: the choice of the reader *)

(** The pandas reader [get_data] hands the file to (lines 116-121). *)
Inductive pandas_reader : Type := read_pickle | read_csv | read_excel.

(** What can go wrong before a reader is called: the index [-1] of an empty
    list, and the use at line 124 of [df] when no branch has assigned it. *)
Inductive get_data_exn : Type := SplitIndexError | UnboundLocalError.

(** [l[i]] on a list of strings. *)
Definition getitem_str (l : list string) (i : Z) : string + get_data_exn :=
  let n := Z.of_nat (List.length l) in
  let j := if i <? 0 then i + n else i in
  if (0 <=? j) && (j <? n) then inl (nth (Z.to_nat j) l EmptyString)
  else inr SplitIndexError.

(** Lines 115-124 of [get_data] up to the first use of [df]: the reader
    called on [file], or the exception raised instead.  What the readers do
    with the file, the renaming and the date conversion belong to pandas. *)
Definition get_data_reader (file : string) : pandas_reader + get_data_exn :=
  match getitem_str (split "." file) (-1) with
  | inr e => inr e
  | inl file_extension =>
      if String.eqb file_extension "pkl" then inl read_pickle
      else if String.eqb file_extension "csv" then inl read_csv
      else if String.eqb file_extension "xlsx" then inl read_excel
      else inr UnboundLocalError
  end.

(** A file name that is [ext] itself or ends in a dot followed by [ext]. *)
Definition has_extension (file ext : string) : Prop :=
  file = ext \/ exists stem : string, file = (stem ++ "." ++ ext)%string.

(** The months counted from January of year 0. *)
Definition month_count (year month : Z) : Z := 12 * year + month.

(** * Properties *)

(** ** The month shift *)

Lemma while_month_le_0_closed (y m : Z) :
  while_month_le_0 y m =
  if m <=? 0 then (y + (m - 1) / 12, (m - 1) mod 12 + 1) else (y, m).
Proof.
  funelim (while_month_le_0 y m); clear Heqcall.
  - match goal with
    | IH : while_month_le_0 _ _ = _ |- _ => rewrite IH
    end.
    destruct (Z.leb_spec month 0); try lia.
    replace (month + 12 - 1) with (month - 1 + 1 * 12) by lia.
    rewrite Z.div_add, Z.mod_add by lia.
    destruct (Z.leb_spec (month + 12) 0).
    + f_equal; lia.
    + assert ((month - 1) / 12 = -1) by (symmetry; apply (Z.div_unique _ _ _ (month + 11)); lia).
      assert ((month - 1) mod 12 = month + 11) by (symmetry; apply (Z.mod_unique _ _ (-1)); lia).
      f_equal; lia.
  - destruct (Z.leb_spec month 0); [lia | reflexivity].
Qed.

Lemma while_month_gt_12_closed (y m : Z) :
  0 < m -> while_month_gt_12 y m = (y + (m - 1) / 12, (m - 1) mod 12 + 1).
Proof.
  funelim (while_month_gt_12 y m); clear Heqcall; intros Hpos.
  - match goal with
    | IH : _ -> while_month_gt_12 _ _ = _ |- _ => rewrite IH by lia
    end.
    replace (month - 1) with (month - 12 - 1 + 1 * 12) by lia.
    rewrite Z.div_add, Z.mod_add by lia.
    f_equal; lia.
  - rewrite Z.div_small, Z.mod_small by lia. f_equal; lia.
Qed.

Lemma get_adjusted_year_month_closed (y m offset : Z) :
  get_adjusted_year_month y m offset = shift_closed_form y m offset.
Proof.
  unfold get_adjusted_year_month, shift_closed_form.
  rewrite while_month_le_0_closed.
  pose proof (Z.mod_pos_bound (m + offset - 1) 12 ltac:(lia)) as Hmod.
  replace (m - 1 + offset) with (m + offset - 1) by lia.
  destruct (Z.leb_spec (m + offset) 0).
  - rewrite while_month_gt_12_closed by lia.
    replace ((m + offset - 1) mod 12 + 1 - 1) with ((m + offset - 1) mod 12) by lia.
    rewrite Z.mod_mod, (Z.div_small ((m + offset - 1) mod 12)) by lia.
    f_equal; lia.
  - apply while_month_gt_12_closed; lia.
Qed.

Lemma shift_closed_form_month (y m offset : Z) :
  1 <= snd (shift_closed_form y m offset) <= 12.
Proof.
  unfold shift_closed_form; cbn [snd].
  pose proof (Z.mod_pos_bound (m - 1 + offset) 12 ltac:(lia)). lia.
Qed.

(** C3: for every year, month in 1..12 and integer offset, the two loops of
    [get_adjusted_year_month] end (the function is total) and return the
    closed form [(year + floor((month - 1 + offset) / 12),
    (month - 1 + offset) mod 12 + 1)], floor division and not truncation;
    the returned month lies in 1..12. *)
Theorem get_adjusted_year_month_refines_closed_form (y m offset : Z) :
  1 <= m <= 12 ->
  get_adjusted_year_month y m offset = shift_closed_form y m offset /\
  get_adjusted_year_month y m offset =
    (y + (m - 1 + offset) / 12, (m - 1 + offset) mod 12 + 1) /\
  1 <= snd (get_adjusted_year_month y m offset) <= 12.
Proof.
  intros _. rewrite get_adjusted_year_month_closed.
  split; [reflexivity | split; [reflexivity | apply shift_closed_form_month]].
Qed.

Lemma get_adjusted_year_month_refines_closed_form_witness :
  1 <= 1 <= 12 /\
  get_adjusted_year_month 2024 1 (-1) = (2023, 12) /\
  get_adjusted_year_month 2024 1 (-1) =
    (2024 + (1 - 1 + -1) / 12, (1 - 1 + -1) mod 12 + 1) /\
  get_adjusted_year_month 2024 1 (-1) <>
    (2024 + Z.quot (1 - 1 + -1) 12, Z.rem (1 - 1 + -1) 12 + 1).
Proof.
  split; [lia |].
  destruct (get_adjusted_year_month_refines_closed_form 2024 1 (-1) ltac:(lia))
    as [H1 [H2 _]].
  split; [rewrite H1; reflexivity |]. split; [exact H2 |].
  rewrite H1. discriminate.
Defined.

(** C6: shifting by [offset] and then by [- offset] gives back the month
    one started from, also across a year boundary. *)
Theorem get_adjusted_year_month_round_trip (y m offset : Z) :
  1 <= m <= 12 ->
  (let '(y', m') := get_adjusted_year_month y m offset in
   get_adjusted_year_month y' m' (- offset)) = (y, m) /\
  get_adjusted_year_month y 1 (-1) = (y - 1, 12) /\
  get_adjusted_year_month y 12 1 = (y + 1, 1).
Proof.
  intros Hm. rewrite !get_adjusted_year_month_closed.
  unfold shift_closed_form. split; [| split].
  - rewrite get_adjusted_year_month_closed. unfold shift_closed_form.
    set (t := m - 1 + offset).
    replace (t mod 12 + 1 - 1 + - offset) with (m - 1 + - (t / 12) * 12).
    2:{ pose proof (Z.div_mod t 12 ltac:(lia)). subst t. lia. }
    rewrite Z.div_add, Z.mod_add by lia.
    rewrite (Z.div_small (m - 1)), (Z.mod_small (m - 1)) by lia.
    f_equal; lia.
  - reflexivity.
  - f_equal; lia.
Qed.

Lemma get_adjusted_year_month_round_trip_witness :
  1 <= 12 <= 12 /\
  (let '(y', m') := get_adjusted_year_month 2024 12 1 in
   get_adjusted_year_month y' m' (- (1))) = (2024, 12).
Proof.
  split; [lia |].
  exact (proj1 (get_adjusted_year_month_round_trip 2024 12 1 ltac:(lia))).
Defined.

(** ** Calendar facts *)

Ltac month_cases m :=
  let H := fresh "Hcase" in
  assert (H : m = 1 \/ m = 2 \/ m = 3 \/ m = 4 \/ m = 5 \/ m = 6 \/
              m = 7 \/ m = 8 \/ m = 9 \/ m = 10 \/ m = 11 \/ m = 12) by lia;
  repeat (destruct H as [H | H]); subst m.

Ltac month_tables :=
  cbn [DAYS_BEFORE_MONTH DAYS_IN_MONTH mdays Z.eqb Z.gtb Z.compare
       Pos.eqb Pos.compare Pos.compare_cont andb orb negb].

Lemma is_leap_period (y k : Z) : is_leap (y + 400 * k) = is_leap y.
Proof.
  unfold is_leap.
  replace ((y + 400 * k) mod 4) with (y mod 4)
    by (replace (400 * k) with (100 * k * 4) by lia; now rewrite Z.mod_add).
  replace ((y + 400 * k) mod 100) with (y mod 100)
    by (replace (400 * k) with (4 * k * 100) by lia; now rewrite Z.mod_add).
  replace ((y + 400 * k) mod 400) with (y mod 400)
    by (replace (400 * k) with (k * 400) by lia; now rewrite Z.mod_add).
  reflexivity.
Qed.

Lemma days_before_year_period (y k : Z) :
  days_before_year (y + 400 * k) = days_before_year y + 146097 * k.
Proof.
  unfold days_before_year.
  replace ((y + 400 * k - 1) / 4) with ((y - 1) / 4 + 100 * k)
    by (replace (y + 400 * k - 1) with (y - 1 + 100 * k * 4) by lia;
        now rewrite Z.div_add).
  replace ((y + 400 * k - 1) / 100) with ((y - 1) / 100 + 4 * k)
    by (replace (y + 400 * k - 1) with (y - 1 + 4 * k * 100) by lia;
        now rewrite Z.div_add).
  replace ((y + 400 * k - 1) / 400) with ((y - 1) / 400 + k)
    by (replace (y + 400 * k - 1) with (y - 1 + k * 400) by lia;
        now rewrite Z.div_add).
  lia.
Qed.

Lemma days_in_month_period (y k m : Z) :
  days_in_month (y + 400 * k) m = days_in_month y m.
Proof. unfold days_in_month. now rewrite is_leap_period. Qed.

Lemma weekday_period (y k m d : Z) :
  weekday (mk_datetime (y + 400 * k) m d) = weekday (mk_datetime y m d).
Proof.
  unfold weekday, toordinal, ymd2ord, days_before_month; cbn [dt_year dt_month dt_day].
  rewrite days_before_year_period, is_leap_period.
  match goal with
  | |- (?a + 146097 * k + ?b + ?c + 6) mod 7 = _ =>
      replace (a + 146097 * k + b + c + 6) with (a + b + c + 6 + 20871 * k * 7) by lia
  end.
  now rewrite Z.mod_add.
Qed.

Lemma weekday_range (dt : datetime) : 0 <= weekday dt <= 6.
Proof. unfold weekday. pose proof (Z.mod_pos_bound (toordinal dt + 6) 7). lia. Qed.

(** Within a month the weekday advances with the day. *)
Lemma weekday_of_day (y m d : Z) :
  weekday (mk_datetime y m d) = (weekday (mk_datetime y m 1) + d - 1) mod 7.
Proof.
  unfold weekday, toordinal, ymd2ord; cbn [dt_year dt_month dt_day].
  rewrite <- Z.add_sub_assoc, Zplus_mod_idemp_l. f_equal. lia.
Qed.

Lemma days_in_month_bounds (y m : Z) :
  1 <= m <= 12 -> 28 <= days_in_month y m <= 31.
Proof.
  intros Hm. unfold days_in_month.
  month_cases m; cbn; destruct (is_leap y); cbn; lia.
Qed.

Lemma mdays_days_in_month (y m : Z) :
  1 <= m <= 12 ->
  mdays m + (if (m =? 2) && isleap y then 1 else 0) = days_in_month y m.
Proof.
  intros Hm. unfold days_in_month. change (isleap y) with (is_leap y).
  month_cases m; cbn; destruct (is_leap y); reflexivity.
Qed.

Lemma fits_c_int_iff (z : Z) :
  fits_c_int z = true <-> -2147483648 <= z <= 2147483647.
Proof.
  unfold fits_c_int, C_INT_MIN, C_INT_MAX.
  rewrite andb_true_iff, !Z.leb_le. reflexivity.
Qed.

Lemma fits_c_int_small (z : Z) : -2147483648 <= z <= 2147483647 -> fits_c_int z = true.
Proof. apply fits_c_int_iff. Qed.

Lemma datetime_new_ok (y m d : Z) :
  MINYEAR <= y <= MAXYEAR -> 1 <= m <= 12 -> 1 <= d <= days_in_month y m ->
  datetime_new y m d = Ok (mk_datetime y m d).
Proof.
  intros Hy Hm Hd. unfold datetime_new.
  pose proof (days_in_month_bounds y m Hm) as Hdim.
  rewrite !fits_c_int_small by (unfold MINYEAR, MAXYEAR in *; lia).
  cbn [andb negb].
  replace ((MINYEAR <=? y) && (y <=? MAXYEAR)) with true by (symmetry; apply andb_true_iff; lia).
  replace ((1 <=? m) && (m <=? 12)) with true by (symmetry; apply andb_true_iff; lia).
  replace ((1 <=? d) && (d <=? days_in_month y m)) with true by (symmetry; apply andb_true_iff; lia).
  reflexivity.
Qed.

(** A year outside 1..9999, with a month and a day of ordinary size. *)
Lemma datetime_new_year_error (y m d : Z) :
  ~ MINYEAR <= y <= MAXYEAR -> 1 <= m <= 12 -> 1 <= d <= 31 ->
  datetime_new y m d = Raise (year_error y).
Proof.
  intros Hy Hm Hd. unfold datetime_new, year_error.
  rewrite (fits_c_int_small m), (fits_c_int_small d) by lia.
  rewrite !andb_true_r.
  destruct (fits_c_int y); cbn [negb]; [| reflexivity].
  destruct ((MINYEAR <=? y) && (y <=? MAXYEAR)) eqn:E; [| reflexivity].
  apply andb_true_iff in E. lia.
Qed.

Lemma datetime_new_year_out (y m d : Z) :
  ~ MINYEAR <= y <= MAXYEAR -> -2147483648 <= y <= 2147483647 ->
  1 <= m <= 12 -> 1 <= d <= 31 ->
  datetime_new y m d = Raise (ValueError DateRangeMsg).
Proof.
  intros Hy Hc Hm Hd. rewrite datetime_new_year_error by assumption.
  unfold year_error. now rewrite fits_c_int_small.
Qed.

Lemma year_error_cases (y : Z) :
  year_error y = ValueError DateRangeMsg \/ year_error y = OverflowError.
Proof. unfold year_error. destruct (fits_c_int y); auto. Qed.

(** A date the constructor returns has its year in 1..9999. *)
Lemma datetime_new_Ok_year (y m d : Z) (dt : datetime) :
  datetime_new y m d = Ok dt -> MINYEAR <= y <= MAXYEAR.
Proof.
  unfold datetime_new.
  destruct (negb (fits_c_int y && fits_c_int m && fits_c_int d)); [discriminate |].
  destruct ((MINYEAR <=? y) && (y <=? MAXYEAR)) eqn:E; [| discriminate].
  intros _. apply andb_true_iff in E. lia.
Qed.

(** [calendar.weekday] of a day that exists in its month: no failure, and
    the weekday of the proleptic Gregorian calendar whatever the year. *)
Lemma calendar_weekday_ok (y m d : Z) :
  1 <= m <= 12 -> 1 <= d <= days_in_month y m ->
  calendar_weekday y m d = Ok (weekday (mk_datetime y m d)).
Proof.
  intros Hm Hd. unfold calendar_weekday.
  destruct ((MINYEAR <=? y) && (y <=? MAXYEAR)) eqn:E; cbn [negb].
  - apply andb_true_iff in E. rewrite datetime_new_ok by lia. reflexivity.
  - pose proof (Z.mod_pos_bound y 400 ltac:(lia)) as Hb.
    pose proof (Z.div_mod y 400 ltac:(lia)) as Hdm.
    replace (2000 + y mod 400) with (y + 400 * (5 - y / 400)) by lia.
    rewrite datetime_new_ok.
    + cbn [bind]. now rewrite weekday_period.
    + unfold MINYEAR, MAXYEAR. lia.
    + assumption.
    + now rewrite days_in_month_period.
Qed.

Lemma monthrange_ok (y m : Z) :
  1 <= m <= 12 ->
  monthrange y m = Ok (weekday (mk_datetime y m 1), days_in_month y m).
Proof.
  intros Hm. unfold monthrange.
  replace ((1 <=? m) && (m <=? 12)) with true by (symmetry; apply andb_true_iff; lia).
  cbn [negb]. pose proof (days_in_month_bounds y m Hm).
  rewrite calendar_weekday_ok by lia. cbn [bind].
  now rewrite mdays_days_in_month.
Qed.

(** ** The month grid and its columns *)

Ltac weekday_cases d :=
  let H := fresh "Hcase" in
  assert (H : d = 0 \/ d = 1 \/ d = 2 \/ d = 3 \/ d = 4 \/ d = 5 \/ d = 6) by lia;
  repeat (destruct H as [H | H]); subst d.

Ltac ndays_cases n :=
  let H := fresh "Hcase" in
  assert (H : n = 28 \/ n = 29 \/ n = 30 \/ n = 31) by lia;
  repeat (destruct H as [H | H]); subst n.

(** Reading column [dow] of the grid top to bottom gives those days. *)
Lemma grid_column (day1 ndays dow : Z) :
  0 <= day1 <= 6 -> 28 <= ndays <= 31 -> 0 <= dow <= 6 ->
  collect_day_occurrences (weeks_of (itermonthdays day1 ndays)) dow [] =
  Ok (column_days day1 ndays dow).
Proof.
  intros H1 Hn Hd.
  weekday_cases day1; ndays_cases ndays; weekday_cases dow; vm_compute; reflexivity.
Qed.

Lemma column_days_length (day1 ndays dow : Z) :
  0 <= day1 <= 6 -> 28 <= ndays <= 31 -> 0 <= dow <= 6 ->
  List.length (column_days day1 ndays dow) = 4%nat \/
  List.length (column_days day1 ndays dow) = 5%nat.
Proof.
  intros H1 Hn Hd.
  weekday_cases day1; ndays_cases ndays; weekday_cases dow; vm_compute; auto.
Qed.

Lemma range_lower (a b x : Z) : In x (range a b) -> a <= x < b.
Proof.
  unfold range. intros Hin. apply in_map_iff in Hin as [k [<- Hk]].
  apply in_seq in Hk. lia.
Qed.

Lemma range_cons (a b : Z) : a < b -> range a b = a :: range (a + 1) b.
Proof.
  intros Hab. unfold range.
  replace (Z.to_nat (b - a)) with (S (Z.to_nat (b - (a + 1)))) by lia.
  cbn [seq map]. f_equal; [lia |].
  rewrite <- seq_shift, map_map. apply map_ext. intros k. lia.
Qed.

Lemma range_nil (a b : Z) : b <= a -> range a b = [].
Proof.
  intros Hab. unfold range. now replace (Z.to_nat (b - a)) with 0%nat by lia.
Qed.

Lemma range_ascending (a b : Z) : StronglySorted Z.lt (range a b).
Proof.
  remember (Z.to_nat (b - a)) as n eqn:Hn. revert a Hn.
  induction n as [| n IH]; intros a Hn.
  - rewrite range_nil by lia. constructor.
  - rewrite range_cons by lia. constructor.
    + apply IH. lia.
    + apply Forall_forall. intros x Hx. apply range_lower in Hx. lia.
Qed.

Lemma filter_ascending (f : Z -> bool) (l : list Z) :
  StronglySorted Z.lt l -> StronglySorted Z.lt (filter f l).
Proof.
  induction 1 as [| x l Hs IH Hall]; cbn [filter]; [constructor |].
  destruct (f x); [| exact IH].
  constructor; [exact IH |].
  apply Forall_forall. intros y Hy. apply filter_In in Hy as [Hy _].
  rewrite Forall_forall in Hall. now apply Hall.
Qed.

Lemma column_days_weekday_days (y m dow : Z) :
  column_days (weekday (mk_datetime y m 1)) (days_in_month y m) dow =
  weekday_days y m dow.
Proof.
  unfold column_days, weekday_days. apply filter_ext. intros d.
  now rewrite (weekday_of_day y m d).
Qed.

(** The grid of any month, and the column the source collects from it. *)
Lemma monthcalendar_ok (y m : Z) :
  1 <= m <= 12 ->
  monthcalendar y m =
  Ok (weeks_of (itermonthdays (weekday (mk_datetime y m 1)) (days_in_month y m))).
Proof. intros Hm. unfold monthcalendar. now rewrite monthrange_ok. Qed.

Lemma collect_weekday_days (y m dow : Z) :
  1 <= m <= 12 -> 0 <= dow <= 6 ->
  collect_day_occurrences
    (weeks_of (itermonthdays (weekday (mk_datetime y m 1)) (days_in_month y m)))
    dow [] = Ok (weekday_days y m dow).
Proof.
  intros Hm Hd.
  rewrite grid_column; auto using weekday_range, days_in_month_bounds.
  now rewrite column_days_weekday_days.
Qed.

Lemma weekday_days_length (y m dow : Z) :
  1 <= m <= 12 -> 0 <= dow <= 6 ->
  List.length (weekday_days y m dow) = 4%nat \/
  List.length (weekday_days y m dow) = 5%nat.
Proof.
  intros Hm Hd. rewrite <- column_days_weekday_days.
  apply column_days_length; auto using weekday_range, days_in_month_bounds.
Qed.

Lemma weekday_days_In (y m dow d : Z) :
  In d (weekday_days y m dow) <->
  1 <= d <= days_in_month y m /\ weekday (mk_datetime y m d) = dow.
Proof.
  unfold weekday_days. rewrite filter_In, Z.eqb_eq. split.
  - intros [Hin Hw]. apply range_lower in Hin. split; [lia | assumption].
  - intros [Hd Hw]. split; [| assumption].
    unfold range. apply in_map_iff. exists (Z.to_nat (d - 1)).
    split; [lia |]. apply in_seq. lia.
Qed.

(** ** Parsing the pattern *)

Lemma endswith_last_char (s : string) (c : ascii) :
  endswith s c = true <-> last_char s = Some c.
Proof.
  unfold endswith. destruct (last_char s) as [d |].
  - rewrite Ascii.eqb_eq. split; congruence.
  - split; discriminate.
Qed.

Lemma week_token_check (week_pos : string) :
  existsb (String.eqb week_pos) ["1"; "2"; "3"; "L"]%string = true <->
  In week_pos week_tokens.
Proof.
  rewrite existsb_exists. unfold week_tokens. split.
  - intros [x [Hin Heq]]. apply String.eqb_eq in Heq. now subst.
  - intros Hin. exists week_pos. split; [assumption | apply String.eqb_refl].
Qed.

Lemma parse_int_Some (s : string) (v : Z) :
  parse_int s = Some v <-> int_ s = Ok v.
Proof.
  unfold parse_int. destruct (int_ s); split; congruence.
Qed.

(** [int] raises nothing but a [ValueError] about the text. *)
Lemma parse_int_None (s : string) :
  parse_int s = None <->
  exists m, int_ s = Raise (ValueError m) /\ kind_of_msg m = Some ParseError.
Proof.
  unfold parse_int. split.
  - intros H. unfold int_ in *.
    destruct (lstrip s) as [| c r]; [cbn; eauto |].
    repeat match goal with
      | |- context [match ?x with _ => _ end] => destruct x; cbn in *; eauto
      | H : match ?x with _ => _ end = None |- _ => destruct x; cbn in *; eauto
      end; try discriminate.
  - intros [m [-> _]]. reflexivity.
Qed.

Lemma parse_int_not_None (s : string) :
  parse_int s <> None -> exists v, int_ s = Ok v.
Proof.
  unfold parse_int. destruct (int_ s) as [v | e]; [eauto | congruence].
Qed.

(** The [try] block of type 1, check by check in the order of the source. *)
Lemma parse_type1_unfold (pattern : string) :
  parse_type1 pattern =
  match split "/" pattern with
  | [a; b; week_pos] =>
      match int_ a with
      | Raise (ValueError m) => Raise (ValueError (Type1Msg m))
      | Raise e => Raise e
      | Ok month_offset =>
          match int_ b with
          | Raise (ValueError m) => Raise (ValueError (Type1Msg m))
          | Raise e => Raise e
          | Ok wd =>
              if negb ((1 <=? wd) && (wd <=? 5)) then
                Raise (ValueError (Type1Msg DayMsg))
              else if negb (existsb (String.eqb week_pos) ["1"; "2"; "3"; "L"]%string)
              then Raise (ValueError (Type1Msg WeekMsg))
              else Ok (month_offset, wd - 1, week_pos)
          end
      end
  | l => Raise (ValueError (Type1Msg (UnpackMsg (List.length l))))
  end.
Proof.
  unfold parse_type1.
  destruct (split "/" pattern) as [| a [| b [| c [| x l]]]]; try reflexivity.
  cbn [unpack3 bind].
  destruct (int_ a) as [off | [m | |]]; try reflexivity.
  destruct (int_ b) as [wd | [m | |]]; try reflexivity.
  cbn [bind]. replace (wd - 1 + 1) with wd by lia.
  destruct (negb ((1 <=? wd) && (wd <=? 5))); [reflexivity |].
  destruct (negb (existsb (String.eqb c) ["1"; "2"; "3"; "L"]%string)); reflexivity.
Qed.

Lemma parse_type1_ok (pattern : string) (month_offset wd : Z) (week_pos : string) :
  type1_pattern pattern month_offset wd week_pos ->
  parse_type1 pattern = Ok (month_offset, wd - 1, week_pos).
Proof.
  intros [a [b [Hs [Ha [Hb [Hwd Hw]]]]]].
  apply parse_int_Some in Ha, Hb.
  rewrite parse_type1_unfold, Hs, Ha, Hb.
  replace ((1 <=? wd) && (wd <=? 5)) with true by (symmetry; apply andb_true_iff; lia).
  apply week_token_check in Hw. rewrite Hw. reflexivity.
Qed.

Lemma parse_type1_ok_inv (pattern : string) (v : Z * Z * string) :
  parse_type1 pattern = Ok v ->
  exists month_offset wd week_pos,
    v = (month_offset, wd - 1, week_pos) /\
    type1_pattern pattern month_offset wd week_pos.
Proof.
  rewrite parse_type1_unfold.
  destruct (split "/" pattern) as [| a [| b [| c [| x l]]]] eqn:Hs; try discriminate.
  destruct (int_ a) as [off | [m | |]] eqn:Ha; try discriminate.
  destruct (int_ b) as [wd | [m | |]] eqn:Hb; try discriminate.
  apply parse_int_Some in Ha, Hb.
  destruct ((1 <=? wd) && (wd <=? 5)) eqn:Hwd; [| discriminate].
  destruct (existsb (String.eqb c) ["1"; "2"; "3"; "L"]%string) eqn:Hw; [| discriminate].
  cbn [negb]. intros [= <-]. exists off, wd, c. split; [reflexivity |].
  exists a, b. apply andb_true_iff in Hwd. apply week_token_check in Hw.
  repeat split; try assumption; lia.
Qed.

(** The [try] block of type 2. *)
Lemma parse_type2_unfold (pattern : string) :
  parse_type2 pattern =
  if negb (endswith pattern "F" || endswith pattern "L") then
    Raise (ValueError (Type2Msg SuffixMsg))
  else
    match int_ (drop_last pattern) with
    | Raise (ValueError m) => Raise (ValueError (Type2Msg m))
    | Raise e => Raise e
    | Ok month_offset => Ok (month_offset, endswith pattern "F")
    end.
Proof.
  unfold parse_type2.
  destruct (negb (endswith pattern "F" || endswith pattern "L")); [reflexivity |].
  destruct (int_ (drop_last pattern)) as [off | [m | |]]; reflexivity.
Qed.

Lemma parse_type2_ok (pattern : string) (month_offset : Z) (edge : ascii) :
  type2_pattern pattern month_offset edge ->
  parse_type2 pattern = Ok (month_offset, Ascii.eqb edge "F").
Proof.
  intros [He [Hl Hp]]. apply parse_int_Some in Hp. rewrite parse_type2_unfold, Hp.
  unfold endswith. rewrite Hl.
  destruct He as [-> | ->]; reflexivity.
Qed.

Lemma parse_type2_ok_inv (pattern : string) (v : Z * bool) :
  parse_type2 pattern = Ok v ->
  exists month_offset edge,
    v = (month_offset, Ascii.eqb edge "F") /\
    type2_pattern pattern month_offset edge.
Proof.
  rewrite parse_type2_unfold.
  destruct (endswith pattern "F") eqn:HF; cbn [orb negb].
  - destruct (int_ (drop_last pattern)) as [off | [m | |]] eqn:Hp; try discriminate.
    apply parse_int_Some in Hp.
    intros [= <-]. exists off, "F"%char. split; [reflexivity |].
    apply endswith_last_char in HF. repeat split; auto.
  - destruct (endswith pattern "L") eqn:HL; cbn [negb]; [| discriminate].
    destruct (int_ (drop_last pattern)) as [off | [m | |]] eqn:Hp; try discriminate.
    apply parse_int_Some in Hp.
    intros [= <-]. exists off, "L"%char. split; [reflexivity |].
    apply endswith_last_char in HL. repeat split; auto.
Qed.

(** Month and year of the shifted month, whatever the start. *)
Lemma get_adjusted_year_month_month (y m offset y' m' : Z) :
  get_adjusted_year_month y m offset = (y', m') -> 1 <= m' <= 12.
Proof.
  intros H. pose proof (shift_closed_form_month y m offset) as Hb.
  rewrite <- get_adjusted_year_month_closed, H in Hb. exact Hb.
Qed.

(** ** Picking the day *)

Lemma getitem_nth (l : list Z) (i : Z) :
  0 <= i < Z.of_nat (List.length l) -> getitem l i = Ok (nth (Z.to_nat i) l 0).
Proof.
  intros Hi. unfold getitem.
  destruct (Z.ltb_spec i 0); [lia |].
  replace ((0 <=? i) && (i <? Z.of_nat (List.length l))) with true
    by (symmetry; apply andb_true_iff; lia).
  reflexivity.
Qed.

Lemma nth_pred_length (l : list Z) :
  l <> [] -> nth (Nat.pred (List.length l)) l 0 = last l 0.
Proof.
  induction l as [| x l IH]; [congruence |]. intros _.
  destruct l as [| y l']; [reflexivity |].
  change (nth (List.length (y :: l')) (x :: y :: l') 0 = last (y :: l') 0).
  rewrite <- IH by discriminate. reflexivity.
Qed.

Lemma getitem_last (l : list Z) : l <> [] -> getitem l (-1) = Ok (last l 0).
Proof.
  intros Hne. unfold getitem.
  assert (0 < List.length l)%nat by (destruct l; [congruence | cbn; lia]).
  change (-1 <? 0) with true. cbv iota.
  replace ((0 <=? -1 + Z.of_nat (List.length l)) &&
           (-1 + Z.of_nat (List.length l) <? Z.of_nat (List.length l))) with true
    by (symmetry; apply andb_true_iff; lia).
  replace (Z.to_nat (-1 + Z.of_nat (List.length l))) with (Nat.pred (List.length l))
    by lia.
  now rewrite nth_pred_length.
Qed.


(** The numeric week tokens and the numbers [int] reads from them. *)
Lemma numeric_token (week_pos : string) (ordinal : Z) :
  In week_pos ["1"; "2"; "3"]%string -> parse_int week_pos = Some ordinal ->
  1 <= ordinal <= 3 /\ String.eqb week_pos "L" = false /\
  int_ week_pos = Ok ordinal.
Proof.
  intros Hin Hp. apply parse_int_Some in Hp.
  cbn [In] in Hin. destruct Hin as [<- | [<- | [<- | []]]];
    rewrite Hp; vm_compute in Hp; injection Hp as <-;
    (split; [lia | split; reflexivity]).
Qed.

Lemma select_target_day_L (occ : list Z) :
  select_target_day occ "L" = getitem occ (-1).
Proof. reflexivity. Qed.

Lemma select_target_day_numeric (occ : list Z) (week_pos : string) (ordinal : Z) :
  In week_pos ["1"; "2"; "3"]%string -> parse_int week_pos = Some ordinal ->
  select_target_day occ week_pos =
  if ordinal - 1 <? Z.of_nat (List.length occ) then getitem occ (ordinal - 1)
  else getitem occ (-1).
Proof.
  intros Hin Hp. destruct (numeric_token _ _ Hin Hp) as [_ [HL Hint]].
  unfold select_target_day. rewrite HL, Hint. cbn [bind].
  now rewrite Z.gtb_ltb.
Qed.

(** ** The resolver *)

Lemma last_in_list (l : list Z) : l <> [] -> In (last l 0) l.
Proof.
  intros Hne. rewrite <- nth_pred_length by assumption.
  apply nth_In. destruct l; [congruence | cbn; lia].
Qed.

Lemma week_token_cases (week_pos : string) :
  In week_pos week_tokens ->
  week_pos = "L"%string \/
  exists ordinal, In week_pos ["1"; "2"; "3"]%string /\ parse_int week_pos = Some ordinal.
Proof.
  unfold week_tokens. cbn [In].
  intros [<- | [<- | [<- | [<- | []]]]]; auto; right.
  - exists 1. cbn [In]. auto.
  - exists 2. cbn [In]. auto.
  - exists 3. cbn [In]. auto.
Qed.

(** On three or more occurrences every token picks one of them. *)
Lemma select_target_day_In (occ : list Z) (week_pos : string) :
  (3 <= List.length occ)%nat -> In week_pos week_tokens ->
  exists d, select_target_day occ week_pos = Ok d /\ In d occ.
Proof.
  intros Hlen Hw.
  assert (Hne : occ <> []) by (destruct occ; [cbn in Hlen; lia | discriminate]).
  destruct (week_token_cases _ Hw) as [-> | [ordinal [Hin Hp]]].
  - exists (last occ 0). rewrite select_target_day_L.
    split; [now apply getitem_last | now apply last_in_list].
  - destruct (numeric_token _ _ Hin Hp) as [Hord _].
    rewrite (select_target_day_numeric _ _ _ Hin Hp).
    destruct (Z.ltb_spec (ordinal - 1) (Z.of_nat (List.length occ))); [| lia].
    exists (nth (Z.to_nat (ordinal - 1)) occ 0).
    split; [apply getitem_nth; lia | apply nth_In; lia].
Qed.

Lemma resolve_type1_ok (target_month : datetime) (day_of_week : Z) (week_pos : string) :
  valid_datetime target_month -> 0 <= day_of_week <= 4 ->
  In week_pos week_tokens ->
  exists d,
    resolve_type1 target_month day_of_week week_pos =
      Ok (mk_datetime (dt_year target_month) (dt_month target_month) d) /\
    In d (weekday_days (dt_year target_month) (dt_month target_month) day_of_week).
Proof.
  intros [Hy [Hm Hday]] Hd Hw.
  unfold resolve_type1. rewrite monthcalendar_ok by assumption. cbn [bind].
  rewrite collect_weekday_days by lia. cbn [bind].
  set (occ := weekday_days _ _ _).
  assert (Hlen : List.length occ = 4%nat \/ List.length occ = 5%nat)
    by (apply weekday_days_length; lia).
  destruct (select_target_day_In occ week_pos ltac:(lia) Hw) as [d [Hsel Hin]].
  exists d. rewrite Hsel. cbn [bind]. split; [| exact Hin].
  unfold replace_day. apply datetime_new_ok; try assumption.
  apply weekday_days_In in Hin. tauto.
Qed.

Lemma get_target_date_type1 (start_date : datetime) (pattern : string)
    (month_offset wd : Z) (week_pos : string) (y m : Z) :
  type1_pattern pattern month_offset wd week_pos ->
  get_adjusted_year_month (dt_year start_date) (dt_month start_date) month_offset
    = (y, m) ->
  get_target_date start_date pattern 1 =
    (target_month <- datetime_new y m 1 ;;
     resolve_type1 target_month (wd - 1) week_pos).
Proof.
  intros Hp Hs. unfold get_target_date. cbn [Z.eqb Pos.eqb orb negb].
  rewrite (parse_type1_ok _ _ _ _ Hp). cbn [bind]. now rewrite Hs.
Qed.

Lemma get_target_date_type2 (start_date : datetime) (pattern : string)
    (month_offset : Z) (edge : ascii) (y m : Z) :
  type2_pattern pattern month_offset edge ->
  get_adjusted_year_month (dt_year start_date) (dt_month start_date) month_offset
    = (y, m) ->
  get_target_date start_date pattern 2 =
    if Ascii.eqb edge "F" then datetime_new y m 1
    else datetime_new y m (days_in_month y m).
Proof.
  intros Hp Hs. unfold get_target_date. cbn [Z.eqb Pos.eqb orb negb].
  rewrite (parse_type2_ok _ _ _ Hp). cbn [bind]. rewrite Hs.
  destruct (Ascii.eqb edge "F"); [reflexivity |].
  rewrite monthrange_ok by (eapply get_adjusted_year_month_month; eassumption).
  reflexivity.
Qed.

(** A parse failure is the failure of the whole call, whatever the date. *)
Lemma get_target_date_type1_parse_error (pattern : string) (e : exn) :
  parse_type1 pattern = Raise e ->
  forall start_date, get_target_date start_date pattern 1 = Raise e.
Proof.
  intros Hp start_date. unfold get_target_date. cbn [Z.eqb Pos.eqb orb negb].
  now rewrite Hp.
Qed.

Lemma get_target_date_type2_parse_error (pattern : string) (e : exn) :
  parse_type2 pattern = Raise e ->
  forall start_date, get_target_date start_date pattern 2 = Raise e.
Proof.
  intros Hp start_date. unfold get_target_date. cbn [Z.eqb Pos.eqb orb negb].
  now rewrite Hp.
Qed.

(** C4: with a numeric ordinal and [idx = ordinal - 1], the day picked from
    the ascending occurrences of the weekday in the target month is
    [occurrences[idx]] when [idx < len(occurrences)] and the last occurrence
    otherwise, never a failure; an ordinal 3 asked of fewer than three
    occurrences gives what [L] gives. *)
Theorem resolver_ordinal_or_last
    (target_month : datetime) (day_of_week : Z) (week_pos : string) (ordinal : Z) :
  valid_datetime target_month -> 0 <= day_of_week <= 4 ->
  In week_pos ["1"; "2"; "3"]%string -> parse_int week_pos = Some ordinal ->
  let occurrences :=
    weekday_days (dt_year target_month) (dt_month target_month) day_of_week in
  let idx := ordinal - 1 in
  (forall occ : list Z, occ <> [] ->
     select_target_day occ week_pos =
       Ok (if idx <? Z.of_nat (List.length occ) then nth (Z.to_nat idx) occ 0
           else last occ 0)) /\
  (forall occ : list Z, (0 < List.length occ < 3)%nat ->
     select_target_day occ "3" = select_target_day occ "L" /\
     select_target_day occ "3" = Ok (last occ 0)) /\
  resolve_type1 target_month day_of_week week_pos =
    Ok (mk_datetime (dt_year target_month) (dt_month target_month)
          (if idx <? Z.of_nat (List.length occurrences)
           then nth (Z.to_nat idx) occurrences 0 else last occurrences 0)) /\
  (forall (start_date : datetime) (pattern : string) (month_offset : Z),
     type1_pattern pattern month_offset (day_of_week + 1) week_pos ->
     get_adjusted_year_month (dt_year start_date) (dt_month start_date) month_offset
       = (dt_year target_month, dt_month target_month) ->
     get_target_date start_date pattern 1 =
       Ok (mk_datetime (dt_year target_month) (dt_month target_month)
             (if idx <? Z.of_nat (List.length occurrences)
              then nth (Z.to_nat idx) occurrences 0 else last occurrences 0))).
Proof.
  intros Hv Hd Hin Hp occurrences idx.
  assert (Hcall : forall r,
    resolve_type1 target_month day_of_week week_pos = r ->
    forall (start_date : datetime) (pattern : string) (month_offset : Z),
      type1_pattern pattern month_offset (day_of_week + 1) week_pos ->
      get_adjusted_year_month (dt_year start_date) (dt_month start_date) month_offset
        = (dt_year target_month, dt_month target_month) ->
      get_target_date start_date pattern 1 = r).
  { intros r Hr start_date pattern month_offset Hpat Hshift.
    rewrite (get_target_date_type1 _ _ _ _ _ _ _ Hpat Hshift).
    destruct Hv as [Hy [Hm Hday]].
    pose proof (days_in_month_bounds (dt_year target_month) _ Hm) as Hdim.
    rewrite datetime_new_ok by lia. cbn [bind].
    replace (day_of_week + 1 - 1) with day_of_week by lia.
    rewrite <- Hr. unfold resolve_type1, replace_day. reflexivity. }
  cut ((forall occ : list Z, occ <> [] ->
          select_target_day occ week_pos =
            Ok (if idx <? Z.of_nat (List.length occ) then nth (Z.to_nat idx) occ 0
                else last occ 0)) /\
       (forall occ : list Z, (0 < List.length occ < 3)%nat ->
          select_target_day occ "3" = select_target_day occ "L" /\
          select_target_day occ "3" = Ok (last occ 0)) /\
       resolve_type1 target_month day_of_week week_pos =
         Ok (mk_datetime (dt_year target_month) (dt_month target_month)
               (if idx <? Z.of_nat (List.length occurrences)
                then nth (Z.to_nat idx) occurrences 0 else last occurrences 0))).
  { intros [H1 [H2 H3]]. repeat (split; [assumption |]). exact (Hcall _ H3). }
  clear Hcall.
  destruct (numeric_token _ _ Hin Hp) as [Hord _].
  assert (Hsel : forall occ : list Z, occ <> [] ->
     select_target_day occ week_pos =
       Ok (if idx <? Z.of_nat (List.length occ) then nth (Z.to_nat idx) occ 0
           else last occ 0)).
  { intros occ Hne. rewrite (select_target_day_numeric occ _ _ Hin Hp).
    fold idx. destruct (Z.ltb_spec idx (Z.of_nat (List.length occ))).
    - apply getitem_nth. subst idx. lia.
    - now apply getitem_last. }
  split; [exact Hsel | split].
  - intros occ Hlen.
    assert (Hne : occ <> []) by (destruct occ; [cbn in Hlen; lia | discriminate]).
    rewrite select_target_day_L, (getitem_last occ Hne).
    rewrite (select_target_day_numeric occ "3" 3) by (cbn; auto).
    destruct (Z.ltb_spec (3 - 1) (Z.of_nat (List.length occ))); [lia |].
    rewrite (getitem_last occ Hne). auto.
  - destruct Hv as [Hy [Hm Hday]].
    unfold resolve_type1. rewrite monthcalendar_ok by assumption. cbn [bind].
    rewrite collect_weekday_days by lia. cbn [bind]. fold occurrences.
    assert (Hlen : List.length occurrences = 4%nat \/ List.length occurrences = 5%nat)
      by (apply weekday_days_length; lia).
    assert (Hne : occurrences <> [])
      by (destruct occurrences; [cbn in Hlen; lia | discriminate]).
    rewrite (Hsel occurrences Hne). cbn [bind]. unfold replace_day.
    apply datetime_new_ok; try assumption.
    destruct (Z.ltb_spec idx (Z.of_nat (List.length occurrences))); [| subst idx; lia].
    assert (Hnth : In (nth (Z.to_nat idx) occurrences 0) occurrences)
      by (apply nth_In; subst idx; lia).
    apply weekday_days_In in Hnth. tauto.
Qed.

Lemma resolver_ordinal_or_last_witness :
  resolve_type1 (mk_datetime 2024 9 1) 2 "2" = Ok (mk_datetime 2024 9 11) /\
  select_target_day [7; 14] "3" = Ok 14 /\
  get_target_date (mk_datetime 2024 11 20) "-2/3/2" 1 = Ok (mk_datetime 2024 9 11).
Proof.
  assert (Hv : valid_datetime (mk_datetime 2024 9 1))
    by (unfold valid_datetime, MINYEAR, MAXYEAR; cbn; lia).
  destruct (resolver_ordinal_or_last (mk_datetime 2024 9 1) 2 "2" 2 Hv
              ltac:(lia) ltac:(cbn; auto) eq_refl) as [_ [Hshort [Hres Hcall]]].
  split; [| split].
  - rewrite Hres. vm_compute. reflexivity.
  - apply (Hshort [7; 14]). cbn. lia.
  - rewrite (Hcall (mk_datetime 2024 11 20) "-2/3/2"%string (-2)).
    + vm_compute. reflexivity.
    + exists "-2"%string, "3"%string.
      split; [reflexivity |]. split; [reflexivity |]. split; [reflexivity |].
      split; [lia |]. cbn. auto.
    + rewrite get_adjusted_year_month_closed. reflexivity.
Defined.

Lemma weekday_days_ascending (y m dow : Z) :
  StronglySorted Z.lt (weekday_days y m dow).
Proof. apply filter_ascending, range_ascending. Qed.

(** C5: for every year and month, the column of a weekday Monday..Friday
    read off the Monday-first month grid holds the days of the month on that
    weekday, 4 or 5 of them, in ascending order; so for the ordinals 1, 2
    and 3 the test [len(day_occurrences) > week_index] holds and the
    indexed occurrence is the one returned, never the fallback. *)
Theorem weekday_column_four_or_five (y m day_of_week : Z) :
  1 <= m <= 12 -> 0 <= day_of_week <= 4 ->
  exists (c : list (list Z)) (occ : list Z),
    monthcalendar y m = Ok c /\
    collect_day_occurrences c day_of_week [] = Ok occ /\
    occ = weekday_days y m day_of_week /\
    (List.length occ = 4%nat \/ List.length occ = 5%nat) /\
    StronglySorted Z.lt occ /\
    forall (week_pos : string) (ordinal : Z),
      In week_pos ["1"; "2"; "3"]%string -> parse_int week_pos = Some ordinal ->
      (Z.of_nat (List.length occ) >? ordinal - 1) = true /\
      select_target_day occ week_pos = Ok (nth (Z.to_nat (ordinal - 1)) occ 0).
Proof.
  intros Hm Hd.
  exists (weeks_of (itermonthdays (weekday (mk_datetime y m 1)) (days_in_month y m))),
         (weekday_days y m day_of_week).
  assert (Hlen := weekday_days_length y m day_of_week Hm ltac:(lia)).
  repeat split.
  - now apply monthcalendar_ok.
  - apply collect_weekday_days; lia.
  - exact Hlen.
  - apply weekday_days_ascending.
  - destruct (numeric_token _ _ H H0) as [Hord _]. apply Z.gtb_lt. lia.
  - destruct (numeric_token _ _ H H0) as [Hord _].
    rewrite (select_target_day_numeric _ _ _ H H0).
    destruct (Z.ltb_spec (ordinal - 1)
                (Z.of_nat (List.length (weekday_days y m day_of_week)))); [| lia].
    apply getitem_nth. lia.
Qed.

Lemma weekday_column_four_or_five_witness :
  exists (c : list (list Z)) (occ : list Z),
    monthcalendar 2015 2 = Ok c /\
    collect_day_occurrences c 0 [] = Ok occ /\
    occ = [2; 9; 16; 23] /\ List.length c = 5%nat.
Proof.
  destruct (weekday_column_four_or_five 2015 2 0 ltac:(lia) ltac:(lia))
    as [c [occ [Hc [Hocc [Heq _]]]]].
  exists c, occ. split; [exact Hc | split; [exact Hocc | split]].
  - rewrite Heq. vm_compute. reflexivity.
  - vm_compute in Hc. injection Hc as <-. reflexivity.
Defined.

(** C1, as the code has it: for every reference date and every well-formed
    pattern of type 1 whose target year lies in 1..9999, the range of
    [datetime], [get_target_date] returns a date on the requested weekday
    whose year and month are those [get_adjusted_year_month] gives. *)
Theorem type1_weekday_and_month (start_date : datetime) (pattern : string)
    (month_offset wd : Z) (week_pos : string) (y m : Z) :
  valid_datetime start_date ->
  type1_pattern pattern month_offset wd week_pos ->
  get_adjusted_year_month (dt_year start_date) (dt_month start_date) month_offset
    = (y, m) ->
  MINYEAR <= y <= MAXYEAR ->
  exists d : datetime,
    get_target_date start_date pattern 1 = Ok d /\
    valid_datetime d /\
    weekday d = wd - 1 /\
    (dt_year d, dt_month d) = (y, m).
Proof.
  intros _ Hp Hs Hy.
  assert (Hm := get_adjusted_year_month_month _ _ _ _ _ Hs).
  assert (Hwd : 1 <= wd <= 5) by (destruct Hp as [a [b Hp]]; tauto).
  assert (Hw : In week_pos week_tokens) by (destruct Hp as [a [b Hp]]; tauto).
  rewrite (get_target_date_type1 _ _ _ _ _ _ _ Hp Hs).
  pose proof (days_in_month_bounds y m Hm) as Hdim.
  rewrite datetime_new_ok by lia. cbn [bind].
  assert (Hv : valid_datetime (mk_datetime y m 1))
    by (unfold valid_datetime; cbn [dt_year dt_month dt_day]; lia).
  destruct (resolve_type1_ok _ (wd - 1) week_pos Hv ltac:(lia) Hw) as [d [Hr Hin]].
  cbn [dt_year dt_month] in Hr, Hin. apply weekday_days_In in Hin as [Hd Hwk].
  exists (mk_datetime y m d). repeat split; cbn [dt_year dt_month dt_day]; try tauto; lia.
Qed.

(** C1 as stated fails: with reference date 2024-11-20 the well-formed
    pattern "-30000/1/1" has its target month in year -476, which no
    [datetime] holds, and the call raises instead of returning a date. *)
Lemma type1_target_year_out_of_range :
  valid_datetime (mk_datetime 2024 11 20) /\
  type1_pattern "-30000/1/1" (-30000) 1 "1" /\
  get_adjusted_year_month 2024 11 (-30000) = (-476, 11) /\
  get_target_date (mk_datetime 2024 11 20) "-30000/1/1" 1
    = Raise (ValueError DateRangeMsg) /\
  ~ exists d : datetime,
      get_target_date (mk_datetime 2024 11 20) "-30000/1/1" 1 = Ok d.
Proof.
  assert (Hp : type1_pattern "-30000/1/1" (-30000) 1 "1").
  { exists "-30000"%string, "1"%string.
    repeat split; try reflexivity; try lia. cbn. auto. }
  assert (Hs : get_adjusted_year_month 2024 11 (-30000) = (-476, 11))
    by (rewrite get_adjusted_year_month_closed; reflexivity).
  assert (Hr : get_target_date (mk_datetime 2024 11 20) "-30000/1/1" 1
               = Raise (ValueError DateRangeMsg)).
  { rewrite (get_target_date_type1 (mk_datetime 2024 11 20) _ _ _ _ _ _ Hp Hs).
    rewrite datetime_new_year_out by (unfold MINYEAR; lia). reflexivity. }
  split; [unfold valid_datetime, MINYEAR, MAXYEAR; cbn; lia |].
  split; [exact Hp |]. split; [exact Hs |]. split; [exact Hr |].
  intros [d Hd]. rewrite Hr in Hd. discriminate.
Qed.

Lemma type1_weekday_and_month_witness :
  exists d : datetime,
    get_target_date (mk_datetime 2024 11 20) "-1/5/L" 1 = Ok d /\
    valid_datetime d /\ weekday d = 5 - 1 /\ (dt_year d, dt_month d) = (2024, 10).
Proof.
  apply (type1_weekday_and_month (mk_datetime 2024 11 20) "-1/5/L" (-1) 5 "L" 2024 10).
  - unfold valid_datetime, MINYEAR, MAXYEAR. cbn. lia.
  - exists "-1"%string, "5"%string.
    split; [reflexivity |]. split; [reflexivity |]. split; [reflexivity |].
    split; [lia |]. cbn. auto.
  - rewrite get_adjusted_year_month_closed. reflexivity.
  - unfold MINYEAR, MAXYEAR. lia.
Defined.

Lemma is_leap_spec (y : Z) :
  is_leap y = true <-> y mod 4 = 0 /\ (y mod 100 <> 0 \/ y mod 400 = 0).
Proof.
  unfold is_leap.
  rewrite andb_true_iff, orb_true_iff, negb_true_iff, !Z.eqb_eq, Z.eqb_neq.
  reflexivity.
Qed.

(** C2, as the code has it: for every reference date and every well-formed
    pattern of type 2 whose target year lies in 1..9999, edge F gives day 1
    and edge L the last day of the target month, which is 28, 29, 30 or 31
    and is 29 exactly in February of a leap year, with year and month those
    of the shifted month. *)
Theorem type2_first_or_last_day (start_date : datetime) (pattern : string)
    (month_offset : Z) (edge : ascii) (y m : Z) :
  valid_datetime start_date ->
  type2_pattern pattern month_offset edge ->
  get_adjusted_year_month (dt_year start_date) (dt_month start_date) month_offset
    = (y, m) ->
  MINYEAR <= y <= MAXYEAR ->
  get_target_date start_date pattern 2 =
    Ok (mk_datetime y m (if Ascii.eqb edge "F" then 1 else days_in_month y m)) /\
  28 <= days_in_month y m <= 31 /\
  (days_in_month y m = 29 <-> m = 2 /\ is_leap y = true) /\
  (days_in_month y m = 28 <-> m = 2 /\ is_leap y = false) /\
  (days_in_month y m = 30 <-> In m [4; 6; 9; 11]) /\
  valid_datetime (mk_datetime y m (days_in_month y m)) /\
  ~ valid_datetime (mk_datetime y m (days_in_month y m + 1)) /\
  (is_leap y = true <-> y mod 4 = 0 /\ (y mod 100 <> 0 \/ y mod 400 = 0)).
Proof.
  intros _ Hp Hs Hy.
  cut (get_target_date start_date pattern 2 =
         Ok (mk_datetime y m (if Ascii.eqb edge "F" then 1 else days_in_month y m)) /\
       28 <= days_in_month y m <= 31 /\
       (days_in_month y m = 29 <-> m = 2 /\ is_leap y = true) /\
       (days_in_month y m = 28 <-> m = 2 /\ is_leap y = false) /\
       (days_in_month y m = 30 <-> In m [4; 6; 9; 11]) /\
       valid_datetime (mk_datetime y m (days_in_month y m)) /\
       ~ valid_datetime (mk_datetime y m (days_in_month y m + 1))).
  { intros H. repeat (destruct H as [? H]).
    repeat (split; [assumption |]). apply is_leap_spec. }
  assert (Hm := get_adjusted_year_month_month _ _ _ _ _ Hs).
  pose proof (days_in_month_bounds y m Hm) as Hdim.
  rewrite (get_target_date_type2 _ _ _ _ _ _ Hp Hs).
  split; [| split; [exact Hdim | ]].
  - destruct (Ascii.eqb edge "F"); apply datetime_new_ok; lia.
  - unfold valid_datetime; cbn [dt_year dt_month dt_day].
    repeat split; try lia;
      unfold days_in_month in *; month_cases m; destruct (is_leap y);
      cbn in *; try lia; try discriminate; intuition (try lia; try discriminate).
Qed.

Lemma type2_first_or_last_day_witness :
  get_target_date (mk_datetime 2024 1 31) "1L" 2 = Ok (mk_datetime 2024 2 29) /\
  (days_in_month 2024 2 = 29 <-> 2 = 2 /\ is_leap 2024 = true).
Proof.
  destruct (type2_first_or_last_day (mk_datetime 2024 1 31) "1L" 1 "L" 2024 2)
    as [Hr [_ [H29 _]]].
  - unfold valid_datetime, MINYEAR, MAXYEAR. cbn. lia.
  - split; [auto | split; reflexivity].
  - rewrite get_adjusted_year_month_closed. reflexivity.
  - unfold MINYEAR, MAXYEAR. lia.
  - split; [exact Hr | exact H29].
Defined.

(** C2 as stated fails: with reference date 2024-11-20 the well-formed
    patterns "-30000F" and "-30000L" have their target month in year -476
    and the call raises instead of returning a date. *)
Lemma type2_target_year_out_of_range :
  valid_datetime (mk_datetime 2024 11 20) /\
  type2_pattern "-30000F" (-30000) "F" /\
  type2_pattern "-30000L" (-30000) "L" /\
  get_target_date (mk_datetime 2024 11 20) "-30000F" 2
    = Raise (ValueError DateRangeMsg) /\
  get_target_date (mk_datetime 2024 11 20) "-30000L" 2
    = Raise (ValueError DateRangeMsg).
Proof.
  assert (HF : type2_pattern "-30000F" (-30000) "F")
    by (split; [auto | split; reflexivity]).
  assert (HL : type2_pattern "-30000L" (-30000) "L")
    by (split; [auto | split; reflexivity]).
  assert (Hs : get_adjusted_year_month 2024 11 (-30000) = (-476, 11))
    by (rewrite get_adjusted_year_month_closed; reflexivity).
  split; [unfold valid_datetime, MINYEAR, MAXYEAR; cbn; lia |].
  split; [exact HF | split; [exact HL | split]].
  - rewrite (get_target_date_type2 (mk_datetime 2024 11 20) _ _ _ _ _ HF Hs). vm_compute. reflexivity.
  - rewrite (get_target_date_type2 (mk_datetime 2024 11 20) _ _ _ _ _ HL Hs). vm_compute. reflexivity.
Qed.

(** ** Failures *)

Lemma get_target_date_type1_total (start_date : datetime) (pattern : string)
    (month_offset wd : Z) (week_pos : string) (y m : Z) :
  type1_pattern pattern month_offset wd week_pos ->
  get_adjusted_year_month (dt_year start_date) (dt_month start_date) month_offset
    = (y, m) ->
  (MINYEAR <= y <= MAXYEAR ->
   exists d, get_target_date start_date pattern 1 = Ok d) /\
  (~ MINYEAR <= y <= MAXYEAR ->
   get_target_date start_date pattern 1 = Raise (year_error y)).
Proof.
  intros Hp Hs.
  assert (Hm := get_adjusted_year_month_month _ _ _ _ _ Hs).
  rewrite (get_target_date_type1 _ _ _ _ _ _ _ Hp Hs). split; intros Hy.
  - pose proof (days_in_month_bounds y m Hm) as Hdim.
    rewrite datetime_new_ok by lia. cbn [bind].
    destruct Hp as [a [b [_ [_ [_ [Hwd Hw]]]]]].
    assert (Hv : valid_datetime (mk_datetime y m 1))
      by (unfold valid_datetime; cbn [dt_year dt_month dt_day]; lia).
    destruct (resolve_type1_ok _ (wd - 1) week_pos Hv ltac:(lia) Hw) as [d [Hr _]].
    eauto.
  - rewrite datetime_new_year_error by lia. reflexivity.
Qed.

Lemma parse_type1_fails_iff (pattern : string) :
  fails (parse_type1 pattern) <->
  ~ exists month_offset wd week_pos, type1_pattern pattern month_offset wd week_pos.
Proof.
  split.
  - intros [e He] [off [wd [w Hp]]].
    rewrite (parse_type1_ok _ _ _ _ Hp) in He. discriminate.
  - intros Hn. destruct (parse_type1 pattern) as [v | e] eqn:E.
    + exfalso. apply Hn. apply parse_type1_ok_inv in E.
      destruct E as [off [wd [w [_ Hp]]]]. eauto.
    + exists e. reflexivity.
Qed.


Lemma get_target_date_type1_fails_iff (start_date : datetime) (pattern : string) :
  fails (get_target_date start_date pattern 1) <->
  (~ exists month_offset wd week_pos, type1_pattern pattern month_offset wd week_pos) \/
  (exists month_offset wd week_pos,
     type1_pattern pattern month_offset wd week_pos /\
     ~ MINYEAR <=
         fst (get_adjusted_year_month (dt_year start_date) (dt_month start_date)
                month_offset) <= MAXYEAR).
Proof.
  split.
  - intros [e He]. destruct (parse_type1 pattern) as [v | e'] eqn:E.
    + right. apply parse_type1_ok_inv in E.
      destruct E as [off [wd [w [_ Hp]]]]. exists off, wd, w. split; [exact Hp |].
      destruct (get_adjusted_year_month (dt_year start_date) (dt_month start_date) off)
        as [y m] eqn:Hs. cbn [fst].
      destruct (get_target_date_type1_total _ _ _ _ _ _ _ Hp Hs) as [Hin _].
      intros Hy. destruct (Hin Hy) as [d Hd]. congruence.
    + left. apply parse_type1_fails_iff. exists e'. exact E.
  - intros [Hn | [off [wd [w [Hp Hy]]]]].
    + apply parse_type1_fails_iff in Hn. destruct Hn as [e He].
      exists e. now apply get_target_date_type1_parse_error.
    + destruct (get_adjusted_year_month (dt_year start_date) (dt_month start_date) off)
        as [y m] eqn:Hs. cbn [fst] in Hy.
      destruct (get_target_date_type1_total _ _ _ _ _ _ _ Hp Hs) as [_ Hout].
      eexists. exact (Hout Hy).
Qed.

(** C7, as the code has it: a call of type 1 fails in the parsing block,
    before the month shift and whatever the reference date, exactly when the
    pattern is not well formed: not three fields (FormatError), a month
    offset or a weekday that [int] rejects (ParseError), a weekday outside
    1..5 (ValidationError), a week token other than 1, 2, 3, L
    (ValidationError).  A well-formed pattern gives a date when the target
    year lies in 1..9999; otherwise the call fails after the month shift,
    and not with one of these errors. *)
Theorem type1_failures (pattern : string) :
  (forall start_date,
     fails (get_target_date start_date pattern 1) <->
     (~ exists month_offset wd week_pos,
          type1_pattern pattern month_offset wd week_pos) \/
     (exists month_offset wd week_pos,
        type1_pattern pattern month_offset wd week_pos /\
        ~ MINYEAR <=
            fst (get_adjusted_year_month (dt_year start_date) (dt_month start_date)
                   month_offset) <= MAXYEAR)) /\
  (fails (parse_type1 pattern) <->
   ~ exists month_offset wd week_pos, type1_pattern pattern month_offset wd week_pos) /\
  (forall e, parse_type1 pattern = Raise e ->
     forall start_date, get_target_date start_date pattern 1 = Raise e) /\
  (forall start_date,
     List.length (split "/" pattern) <> 3%nat ->
     error_kind_of (get_target_date start_date pattern 1) = Some FormatError) /\
  (forall start_date a b c,
     split "/" pattern = [a; b; c] ->
     let kind := error_kind_of (get_target_date start_date pattern 1) in
     (parse_int a = None -> kind = Some ParseError) /\
     (parse_int a <> None -> parse_int b = None -> kind = Some ParseError) /\
     (forall wd, parse_int a <> None -> parse_int b = Some wd ->
        ~ 1 <= wd <= 5 -> kind = Some ValidationError) /\
     (forall wd, parse_int a <> None -> parse_int b = Some wd ->
        1 <= wd <= 5 -> ~ In c week_tokens -> kind = Some ValidationError)) /\
  (forall start_date month_offset wd week_pos y m,
     type1_pattern pattern month_offset wd week_pos ->
     get_adjusted_year_month (dt_year start_date) (dt_month start_date) month_offset
       = (y, m) ->
     (MINYEAR <= y <= MAXYEAR ->
      exists d, get_target_date start_date pattern 1 = Ok d) /\
     (~ MINYEAR <= y <= MAXYEAR ->
      fails (get_target_date start_date pattern 1) /\
      error_kind_of (get_target_date start_date pattern 1) = None)).
Proof.
  split; [| split; [| split; [| split; [| split]]]].
  - intros start_date. apply get_target_date_type1_fails_iff.
  - apply parse_type1_fails_iff.
  - apply get_target_date_type1_parse_error.
  - intros start_date Hlen.
    assert (Hp : parse_type1 pattern =
                 Raise (ValueError (Type1Msg (UnpackMsg (List.length (split "/" pattern)))))).
    { rewrite parse_type1_unfold.
      destruct (split "/" pattern) as [| a [| b [| c [| x l]]]]; try reflexivity.
      cbn in Hlen. congruence. }
    rewrite (get_target_date_type1_parse_error _ _ Hp). reflexivity.
  - intros start_date a b c Hs kind. subst kind.
    pose proof (parse_type1_unfold pattern) as Hu. rewrite Hs in Hu.
    repeat split.
    + intros Ha. apply parse_int_None in Ha as [m [Ha Hk]]. rewrite Ha in Hu.
      rewrite (get_target_date_type1_parse_error _ _ Hu). exact Hk.
    + intros Ha Hb. apply parse_int_not_None in Ha as [off Ha].
      apply parse_int_None in Hb as [m [Hb Hk]]. rewrite Ha, Hb in Hu.
      rewrite (get_target_date_type1_parse_error _ _ Hu). exact Hk.
    + intros wd Ha Hb Hwd. apply parse_int_not_None in Ha as [off Ha].
      apply parse_int_Some in Hb. rewrite Ha, Hb in Hu.
      replace ((1 <=? wd) && (wd <=? 5)) with false in Hu
        by (symmetry; apply andb_false_iff; lia).
      rewrite (get_target_date_type1_parse_error _ _ Hu). reflexivity.
    + intros wd Ha Hb Hwd Hc. apply parse_int_not_None in Ha as [off Ha].
      apply parse_int_Some in Hb. rewrite Ha, Hb in Hu.
      replace ((1 <=? wd) && (wd <=? 5)) with true in Hu
        by (symmetry; apply andb_true_iff; lia).
      destruct (existsb (String.eqb c) ["1"; "2"; "3"; "L"]%string) eqn:E.
      * apply week_token_check in E. contradiction.
      * rewrite (get_target_date_type1_parse_error _ _ Hu). reflexivity.
  - intros start_date off wd w y m Hp Hs.
    destruct (get_target_date_type1_total _ _ _ _ _ _ _ Hp Hs) as [Hin Hout].
    split; [exact Hin |]. intros Hy. rewrite (Hout Hy).
    split; [eexists; reflexivity |].
    destruct (year_error_cases y) as [-> | ->]; reflexivity.
Qed.

Lemma type1_failures_witness :
  let start_date := mk_datetime 2024 11 20 in
  error_kind_of (get_target_date start_date "0/1" 1) = Some FormatError /\
  error_kind_of (get_target_date start_date "abc/1/1" 1) = Some ParseError /\
  error_kind_of (get_target_date start_date "0/x/1" 1) = Some ParseError /\
  error_kind_of (get_target_date start_date "0/6/1" 1) = Some ValidationError /\
  error_kind_of (get_target_date start_date "0/1/4" 1) = Some ValidationError /\
  exists d, get_target_date start_date "0/1/1" 1 = Ok d.
Proof.
  intros start_date.
  split; [| split; [| split; [| split; [| split]]]].
  - destruct (type1_failures "0/1") as [_ [_ [_ [Hformat _]]]].
    apply Hformat. cbn. discriminate.
  - destruct (type1_failures "abc/1/1") as [_ [_ [_ [_ [Hfield _]]]]].
    destruct (Hfield start_date "abc" "1" "1" eq_refl)%string as [Hoffset _].
    apply Hoffset. reflexivity.
  - destruct (type1_failures "0/x/1") as [_ [_ [_ [_ [Hfield _]]]]].
    destruct (Hfield start_date "0" "x" "1" eq_refl)%string as [_ [Hday _]].
    apply Hday; [discriminate | reflexivity].
  - destruct (type1_failures "0/6/1") as [_ [_ [_ [_ [Hfield _]]]]].
    destruct (Hfield start_date "0" "6" "1" eq_refl)%string as [_ [_ [Hrange _]]].
    apply (Hrange 6); [discriminate | reflexivity | lia].
  - destruct (type1_failures "0/1/4") as [_ [_ [_ [_ [Hfield _]]]]].
    destruct (Hfield start_date "0" "1" "4" eq_refl)%string as [_ [_ [_ Htoken]]].
    apply (Htoken 1); [discriminate | reflexivity | lia |].
    cbn. intros [H | [H | [H | [H | []]]]]; discriminate.
  - destruct (type1_failures "0/1/1") as [_ [_ [_ [_ [_ Hgood]]]]].
    destruct (Hgood start_date 0 1 "1"%string 2024 11) as [Hin _].
    + exists "0"%string, "1"%string.
      split; [reflexivity |]. split; [reflexivity |]. split; [reflexivity |].
      split; [lia |]. cbn. auto.
    + rewrite get_adjusted_year_month_closed. reflexivity.
    + apply Hin. unfold MINYEAR, MAXYEAR. lia.
Defined.

(** C7 as stated fails twice.  The well-formed pattern "-30000/1/1" fails,
    after the month shift, for reference date 2024-11-20; and "0/x/1", whose
    weekday field is no integer at all, fails although it has three fields,
    a month offset that parses and an allowed week token. *)
Lemma well_formed_type1_call_fails :
  (type1_pattern "-30000/1/1" (-30000) 1 "1" /\
   is_ok (parse_type1 "-30000/1/1") = true /\
   get_target_date (mk_datetime 2024 11 20) "-30000/1/1" 1
     = Raise (ValueError DateRangeMsg)) /\
  (split "/" "0/x/1" = ["0"; "x"; "1"]%string /\
   parse_int "0" = Some 0 /\ parse_int "x" = None /\ In "1"%string week_tokens /\
   get_target_date (mk_datetime 2024 11 20) "0/x/1" 1
     = Raise (ValueError (Type1Msg (IntLiteralMsg "x")))).
Proof.
  split.
  - assert (Hp : type1_pattern "-30000/1/1" (-30000) 1 "1").
    { exists "-30000"%string, "1"%string.
      repeat split; try reflexivity; try lia. cbn. auto. }
    split; [exact Hp | split; [reflexivity |]].
    rewrite (get_target_date_type1 (mk_datetime 2024 11 20) _ _ _ _ (-476) 11 Hp).
    + rewrite datetime_new_year_out by (unfold MINYEAR; lia). reflexivity.
    + rewrite get_adjusted_year_month_closed. reflexivity.
  - repeat split; try reflexivity. cbn. auto.
Qed.

Lemma get_target_date_type2_total (start_date : datetime) (pattern : string)
    (month_offset : Z) (edge : ascii) (y m : Z) :
  type2_pattern pattern month_offset edge ->
  get_adjusted_year_month (dt_year start_date) (dt_month start_date) month_offset
    = (y, m) ->
  (MINYEAR <= y <= MAXYEAR ->
   exists d, get_target_date start_date pattern 2 = Ok d) /\
  (~ MINYEAR <= y <= MAXYEAR ->
   get_target_date start_date pattern 2 = Raise (year_error y)).
Proof.
  intros Hp Hs.
  assert (Hm := get_adjusted_year_month_month _ _ _ _ _ Hs).
  pose proof (days_in_month_bounds y m Hm) as Hdim.
  rewrite (get_target_date_type2 _ _ _ _ _ _ Hp Hs). split; intros Hy.
  - destruct (Ascii.eqb edge "F"); rewrite datetime_new_ok by lia; eauto.
  - destruct (Ascii.eqb edge "F"); rewrite datetime_new_year_error by lia;
      reflexivity.
Qed.

Lemma parse_type2_fails_iff (pattern : string) :
  fails (parse_type2 pattern) <->
  ~ exists month_offset edge, type2_pattern pattern month_offset edge.
Proof.
  split.
  - intros [e He] [off [edge Hp]].
    rewrite (parse_type2_ok _ _ _ Hp) in He. discriminate.
  - intros Hn. destruct (parse_type2 pattern) as [v | e] eqn:E.
    + exfalso. apply Hn. apply parse_type2_ok_inv in E.
      destruct E as [off [edge [_ Hp]]]. eauto.
    + exists e. reflexivity.
Qed.

Lemma get_target_date_type2_fails_iff (start_date : datetime) (pattern : string) :
  fails (get_target_date start_date pattern 2) <->
  (~ exists month_offset edge, type2_pattern pattern month_offset edge) \/
  (exists month_offset edge,
     type2_pattern pattern month_offset edge /\
     ~ MINYEAR <=
         fst (get_adjusted_year_month (dt_year start_date) (dt_month start_date)
                month_offset) <= MAXYEAR).
Proof.
  split.
  - intros [e He]. destruct (parse_type2 pattern) as [v | e'] eqn:E.
    + right. apply parse_type2_ok_inv in E.
      destruct E as [off [edge [_ Hp]]]. exists off, edge. split; [exact Hp |].
      destruct (get_adjusted_year_month (dt_year start_date) (dt_month start_date) off)
        as [y m] eqn:Hs. cbn [fst].
      destruct (get_target_date_type2_total _ _ _ _ _ _ Hp Hs) as [Hin _].
      intros Hy. destruct (Hin Hy) as [d Hd]. congruence.
    + left. apply parse_type2_fails_iff. exists e'. exact E.
  - intros [Hn | [off [edge [Hp Hy]]]].
    + apply parse_type2_fails_iff in Hn. destruct Hn as [e He].
      exists e. now apply get_target_date_type2_parse_error.
    + destruct (get_adjusted_year_month (dt_year start_date) (dt_month start_date) off)
        as [y m] eqn:Hs. cbn [fst] in Hy.
      destruct (get_target_date_type2_total _ _ _ _ _ _ Hp Hs) as [_ Hout].
      eexists. exact (Hout Hy).
Qed.

(** C8, as the code has it: a call of type 2 fails in the parsing block,
    before the month shift and whatever the reference date, exactly when the
    pattern is empty or does not end in F or L (FormatError) or the text
    before the last letter is rejected by [int] (ParseError).  A well-formed
    pattern gives a date when the target year lies in 1..9999; otherwise the
    call fails after the month shift, and not with one of these errors. *)
Theorem type2_failures (pattern : string) :
  (forall start_date,
     fails (get_target_date start_date pattern 2) <->
     (~ exists month_offset edge, type2_pattern pattern month_offset edge) \/
     (exists month_offset edge,
        type2_pattern pattern month_offset edge /\
        ~ MINYEAR <=
            fst (get_adjusted_year_month (dt_year start_date) (dt_month start_date)
                   month_offset) <= MAXYEAR)) /\
  (fails (parse_type2 pattern) <->
   (pattern = ""%string \/
    (last_char pattern <> Some "F"%char /\ last_char pattern <> Some "L"%char)) \/
   parse_int (drop_last pattern) = None) /\
  (fails (parse_type2 pattern) <->
   ~ exists month_offset edge, type2_pattern pattern month_offset edge) /\
  (forall e, parse_type2 pattern = Raise e ->
     forall start_date, get_target_date start_date pattern 2 = Raise e) /\
  (forall start_date,
     pattern = ""%string \/
     (last_char pattern <> Some "F"%char /\ last_char pattern <> Some "L"%char) ->
     error_kind_of (get_target_date start_date pattern 2) = Some FormatError) /\
  (forall start_date,
     last_char pattern = Some "F"%char \/ last_char pattern = Some "L"%char ->
     parse_int (drop_last pattern) = None ->
     error_kind_of (get_target_date start_date pattern 2) = Some ParseError) /\
  (forall start_date month_offset edge y m,
     type2_pattern pattern month_offset edge ->
     get_adjusted_year_month (dt_year start_date) (dt_month start_date) month_offset
       = (y, m) ->
     (MINYEAR <= y <= MAXYEAR ->
      exists d, get_target_date start_date pattern 2 = Ok d) /\
     (~ MINYEAR <= y <= MAXYEAR ->
      fails (get_target_date start_date pattern 2) /\
      error_kind_of (get_target_date start_date pattern 2) = None)).
Proof.
  pose proof (parse_type2_fails_iff pattern) as Hwf.
  assert (Hsuffix : pattern = ""%string \/
            (last_char pattern <> Some "F"%char /\ last_char pattern <> Some "L"%char) ->
            parse_type2 pattern = Raise (ValueError (Type2Msg SuffixMsg))).
  { intros Hbad. rewrite parse_type2_unfold.
    destruct (endswith pattern "F") eqn:HF.
    - apply endswith_last_char in HF.
      destruct Hbad as [-> | [Hbad _]]; [discriminate | congruence].
    - destruct (endswith pattern "L") eqn:HL; [| reflexivity].
      apply endswith_last_char in HL.
      destruct Hbad as [-> | [_ Hbad]]; [discriminate | congruence]. }
  assert (Hprefix : last_char pattern = Some "F"%char \/ last_char pattern = Some "L"%char ->
            parse_int (drop_last pattern) = None ->
            exists m, parse_type2 pattern = Raise (ValueError (Type2Msg m)) /\
                      kind_of_msg m = Some ParseError).
  { intros Hgood Hp. apply parse_int_None in Hp as [m [Hp Hk]].
    exists m. split; [| exact Hk]. rewrite parse_type2_unfold, Hp.
    replace (endswith pattern "F" || endswith pattern "L") with true; [reflexivity |].
    symmetry. apply orb_true_iff.
    destruct Hgood as [H | H]; apply endswith_last_char in H; auto. }
  split; [intros start_date; apply get_target_date_type2_fails_iff |].
  split; [| split; [exact Hwf | split; [| split; [| split]]]].
  - split.
    + intros Hf.
      destruct (parse_int (drop_last pattern)) as [off |] eqn:Hp; [| now right].
      left. right. split; intros Hl; apply Hwf in Hf; apply Hf.
      * exists off, "F"%char. repeat split; auto.
      * exists off, "L"%char. repeat split; auto.
    + intros [Hbad | Hp].
      * eexists. now apply Hsuffix.
      * apply Hwf. intros [off [edge [_ [_ Hp']]]]. congruence.
  - apply get_target_date_type2_parse_error.
  - intros start_date Hbad.
    rewrite (get_target_date_type2_parse_error _ _ (Hsuffix Hbad)). reflexivity.
  - intros start_date Hgood Hp. destruct (Hprefix Hgood Hp) as [m [Hm Hk]].
    rewrite (get_target_date_type2_parse_error _ _ Hm). exact Hk.
  - intros start_date off edge y m Hp Hs.
    destruct (get_target_date_type2_total _ _ _ _ _ _ Hp Hs) as [Hin Hout].
    split; [exact Hin |]. intros Hy. rewrite (Hout Hy).
    split; [eexists; reflexivity |].
    destruct (year_error_cases y) as [-> | ->]; reflexivity.
Qed.

Lemma type2_failures_witness :
  let start_date := mk_datetime 2024 11 20 in
  error_kind_of (get_target_date start_date "" 2) = Some FormatError /\
  error_kind_of (get_target_date start_date "-1X" 2) = Some FormatError /\
  error_kind_of (get_target_date start_date "oneF" 2) = Some ParseError /\
  exists d, get_target_date start_date "-1F" 2 = Ok d.
Proof.
  intros start_date.
  split; [| split; [| split]].
  - destruct (type2_failures "") as [_ [_ [_ [_ [Hformat _]]]]].
    apply Hformat. left. reflexivity.
  - destruct (type2_failures "-1X") as [_ [_ [_ [_ [Hformat _]]]]].
    apply Hformat. right. split; discriminate.
  - destruct (type2_failures "oneF") as [_ [_ [_ [_ [_ [Hprefix _]]]]]].
    apply Hprefix; [left |]; reflexivity.
  - destruct (type2_failures "-1F") as [_ [_ [_ [_ [_ [_ Hgood]]]]]].
    destruct (Hgood start_date (-1) "F"%char 2024 10) as [Hin _].
    + split; [auto | split; reflexivity].
    + rewrite get_adjusted_year_month_closed. reflexivity.
    + apply Hin. unfold MINYEAR, MAXYEAR. lia.
Defined.

(** C8 as stated fails: the well-formed pattern "-30000F" fails, after the
    month shift, for reference date 2024-11-20. *)
Lemma well_formed_type2_call_fails :
  type2_pattern "-30000F" (-30000) "F" /\
  is_ok (parse_type2 "-30000F") = true /\
  get_target_date (mk_datetime 2024 11 20) "-30000F" 2
    = Raise (ValueError DateRangeMsg).
Proof.
  assert (HF : type2_pattern "-30000F" (-30000) "F")
    by (split; [auto | split; reflexivity]).
  split; [exact HF | split; [reflexivity |]].
  rewrite (get_target_date_type2 (mk_datetime 2024 11 20) _ _ _ (-476) 11 HF).
  - vm_compute. reflexivity.
  - rewrite get_adjusted_year_month_closed. reflexivity.
Qed.

(** ** The scenarios of the source's own example run *)

(** C9: with reference date 2024-11-20, "0/1/1" gives 2024-11-04, "-1/5/L"
    gives 2024-10-25, "-2/3/2" gives 2024-09-11, "-1F" gives 2024-10-01 and
    "1L" gives 2024-12-31. *)
Theorem example_run :
  let start_date := mk_datetime 2024 11 20 in
  get_target_date start_date "0/1/1" 1 = Ok (mk_datetime 2024 11 4) /\
  get_target_date start_date "-1/5/L" 1 = Ok (mk_datetime 2024 10 25) /\
  get_target_date start_date "-2/3/2" 1 = Ok (mk_datetime 2024 9 11) /\
  get_target_date start_date "-1F" 2 = Ok (mk_datetime 2024 10 1) /\
  get_target_date start_date "1L" 2 = Ok (mk_datetime 2024 12 31).
Proof. repeat split; vm_compute; reflexivity. Qed.

(** ** Ordinals and dates *)

Ltac day_cases d :=
  let H := fresh "Hcase" in
  assert (H : d = 1 \/ d = 2 \/ d = 3 \/ d = 4 \/ d = 5 \/ d = 6 \/ d = 7 \/
              d = 8 \/ d = 9 \/ d = 10 \/ d = 11 \/ d = 12 \/ d = 13 \/ d = 14 \/
              d = 15 \/ d = 16 \/ d = 17 \/ d = 18 \/ d = 19 \/ d = 20 \/ d = 21 \/
              d = 22 \/ d = 23 \/ d = 24 \/ d = 25 \/ d = 26 \/ d = 27 \/ d = 28 \/
              d = 29 \/ d = 30 \/ d = 31) by lia;
  repeat (destruct H as [H | H]); subst d.

Lemma month_and_day_ok (m d : Z) (leap : bool) :
  1 <= m <= 12 ->
  1 <= d <= (if (m =? 2) && leap then 29 else DAYS_IN_MONTH m) ->
  month_and_day
    (DAYS_BEFORE_MONTH m + (if (m >? 2) && leap then 1 else 0) + d - 1) leap
  = (m, d).
Proof.
  intros Hm Hd.
  month_cases m; destruct leap; cbn in Hd; day_cases d;
    first [lia | reflexivity].
Qed.

(** Years since year 1 split into 400-, 100-, 4- and 1-year cycles. *)
Lemma ord2ymd_cycles (a b c e r : Z) :
  0 <= b <= 3 -> 0 <= c <= 24 -> 0 <= e <= 3 ->
  let leap := (e =? 3) && (negb (c =? 24) || (b =? 3)) in
  0 <= r < 365 + (if leap then 1 else 0) ->
  ord2ymd (146097 * a + 36524 * b + 1461 * c + 365 * e + r + 1) =
  let '(m, d) := month_and_day r leap in
  (400 * a + 100 * b + 4 * c + e + 1, m, d).
Proof.
  intros Hb Hc He leap Hr.
  set (N1 := 36524 * b + 1461 * c + 365 * e + r).
  assert (Hleap : r = 365 -> e = 3 /\ (c <> 24 \/ b = 3)).
  { intros ->. subst leap.
    destruct (Z.eqb_spec e 3); cbn [andb] in Hr; [| lia].
    destruct (Z.eqb_spec c 24), (Z.eqb_spec b 3); cbn in Hr; lia. }
  assert (Hr365 : 0 <= r <= 365)
    by (revert Hr; generalize leap; intros [|]; lia).
  assert (H400d : (146097 * a + N1) / DI400Y = a)
    by (symmetry; apply (Z.div_unique _ _ _ N1); unfold DI400Y; subst N1; lia).
  assert (H400m : (146097 * a + N1) mod DI400Y = N1)
    by (symmetry; apply (Z.mod_unique _ _ a); unfold DI400Y; subst N1; lia).
  unfold ord2ymd.
  replace (146097 * a + 36524 * b + 1461 * c + 365 * e + r + 1 - 1)
    with (146097 * a + N1) by (subst N1; lia).
  rewrite H400d, H400m.
  destruct (Z.eq_dec r 365) as [Hlast | Hlast].
  - (* 31 December of a leap year *)
    destruct (Hleap Hlast) as [-> Hcb].
    assert (Hmd : month_and_day r leap = (12, 31)).
    { subst r leap. destruct (Z.eqb_spec c 24), (Z.eqb_spec b 3); try lia; reflexivity. }
    rewrite Hmd.
    destruct (Z.eq_dec c 24) as [-> | Hc24].
    + assert (b = 3) by lia. subst b r N1.
      change ((36524 * 3 + 1461 * 24 + 365 * 3 + 365) / DI100Y) with 4.
      change ((36524 * 3 + 1461 * 24 + 365 * 3 + 365) mod DI100Y) with 0.
      change (0 mod DI4Y) with 0. change (0 / DI4Y) with 0. change (0 / 365) with 0.
      cbn [Z.eqb Pos.eqb orb]. f_equal. f_equal. lia.
    + assert (H100d : N1 / DI100Y = b)
        by (symmetry; apply (Z.div_unique _ _ _ (1461 * c + 365 * 3 + r));
            unfold DI100Y; subst N1; lia).
      assert (H100m : N1 mod DI100Y = 1461 * c + 365 * 3 + r)
        by (symmetry; apply (Z.mod_unique _ _ b); unfold DI100Y; subst N1; lia).
      rewrite H100d, H100m.
      assert (H4d : (1461 * c + 365 * 3 + r) / DI4Y = c)
        by (symmetry; apply (Z.div_unique _ _ _ (365 * 3 + r)); unfold DI4Y; lia).
      assert (H4m : (1461 * c + 365 * 3 + r) mod DI4Y = 365 * 3 + r)
        by (symmetry; apply (Z.mod_unique _ _ c); unfold DI4Y; lia).
      rewrite H4d, H4m. subst r.
      change ((365 * 3 + 365) / 365) with 4. cbn [Z.eqb Pos.eqb orb].
      f_equal. f_equal. lia.
  - assert (Hr' : 0 <= r < 365) by lia.
    assert (H100d : N1 / DI100Y = b)
      by (symmetry; apply (Z.div_unique _ _ _ (1461 * c + 365 * e + r));
          unfold DI100Y; subst N1; lia).
    assert (H100m : N1 mod DI100Y = 1461 * c + 365 * e + r)
      by (symmetry; apply (Z.mod_unique _ _ b); unfold DI100Y; subst N1; lia).
    rewrite H100d, H100m.
    assert (H4d : (1461 * c + 365 * e + r) / DI4Y = c)
      by (symmetry; apply (Z.div_unique _ _ _ (365 * e + r)); unfold DI4Y; lia).
    assert (H4m : (1461 * c + 365 * e + r) mod DI4Y = 365 * e + r)
      by (symmetry; apply (Z.mod_unique _ _ c); unfold DI4Y; lia).
    rewrite H4d, H4m.
    assert (H1d : (365 * e + r) / 365 = e)
      by (symmetry; apply (Z.div_unique _ _ _ r); lia).
    assert (H1m : (365 * e + r) mod 365 = r)
      by (symmetry; apply (Z.mod_unique _ _ e); lia).
    rewrite H1d, H1m.
    replace (e =? 4) with false by (symmetry; apply Z.eqb_neq; lia).
    replace (b =? 4) with false by (symmetry; apply Z.eqb_neq; lia).
    cbn [orb]. fold leap. unfold month_and_day.
    destruct (_ >? r); f_equal; f_equal; lia.
Qed.

Lemma year_cycles (y : Z) :
  exists a b c e : Z,
    0 <= b <= 3 /\ 0 <= c <= 24 /\ 0 <= e <= 3 /\
    y = 400 * a + 100 * b + 4 * c + e + 1 /\
    days_before_year y = 146097 * a + 36524 * b + 1461 * c + 365 * e /\
    is_leap y = (e =? 3) && (negb (c =? 24) || (b =? 3)).
Proof.
  exists ((y - 1) / 400), ((y - 1) mod 400 / 100), ((y - 1) mod 100 / 4), ((y - 1) mod 4).
  unfold days_before_year, is_leap.
  split; [Z.div_mod_to_equations; lia |].
  split; [Z.div_mod_to_equations; lia |].
  split; [Z.div_mod_to_equations; lia |].
  split; [Z.div_mod_to_equations; lia |].
  split; [Z.div_mod_to_equations; lia |].
  destruct (Z.eqb_spec (y mod 4) 0), (Z.eqb_spec (y mod 100) 0),
    (Z.eqb_spec (y mod 400) 0), (Z.eqb_spec ((y - 1) mod 4) 3),
    (Z.eqb_spec ((y - 1) mod 100 / 4) 24), (Z.eqb_spec ((y - 1) mod 400 / 100) 3);
    cbn; try reflexivity; exfalso; Z.div_mod_to_equations; lia.
Qed.

Lemma day_of_year_bounds (y m d : Z) :
  1 <= m <= 12 -> 1 <= d <= days_in_month y m ->
  0 <= days_before_month y m + d - 1 < 365 + (if is_leap y then 1 else 0).
Proof.
  intros Hm. unfold days_before_month, days_in_month.
  month_cases m; destruct (is_leap y); month_tables; lia.
Qed.

(** [ord2ymd] undoes [ymd2ord] on every date of the calendar. *)
Lemma ord2ymd_ymd2ord (y m d : Z) :
  1 <= m <= 12 -> 1 <= d <= days_in_month y m ->
  ord2ymd (ymd2ord y m d) = (y, m, d).
Proof.
  intros Hm Hd.
  pose proof (day_of_year_bounds y m d Hm Hd) as Hr.
  destruct (year_cycles y) as [a [b [c [e [Hb [Hc [He [Hy [Hdby Hleap]]]]]]]]].
  unfold ymd2ord. rewrite Hdby.
  replace (146097 * a + 36524 * b + 1461 * c + 365 * e + days_before_month y m + d)
    with (146097 * a + 36524 * b + 1461 * c + 365 * e
          + (days_before_month y m + d - 1) + 1) by lia.
  rewrite Hleap in Hr.
  rewrite (ord2ymd_cycles a b c e _ Hb Hc He Hr).
  unfold days_before_month, days_in_month in *. rewrite Hleap in *.
  rewrite month_and_day_ok by assumption.
  now rewrite Hy.
Qed.

Lemma days_before_year_succ (y : Z) :
  days_before_year (y + 1) = days_before_year y + 365 + (if is_leap y then 1 else 0).
Proof.
  unfold days_before_year, is_leap.
  replace (y + 1 - 1) with y by lia.
  destruct (Z.eqb_spec (y mod 4) 0), (Z.eqb_spec (y mod 100) 0),
    (Z.eqb_spec (y mod 400) 0); cbn; Z.div_mod_to_equations; lia.
Qed.

Lemma days_before_year_mono (y y' : Z) :
  y <= y' -> days_before_year y <= days_before_year y'.
Proof.
  intros Hle. unfold days_before_year. Z.div_mod_to_equations. lia.
Qed.

(** Every date of the years 1..9999 has its ordinal in 1..MAXORDINAL. *)
Lemma ymd2ord_range (y m d : Z) :
  MINYEAR <= y <= MAXYEAR -> 1 <= m <= 12 -> 1 <= d <= days_in_month y m ->
  0 < ymd2ord y m d <= MAXORDINAL.
Proof.
  intros Hy Hm Hd. pose proof (day_of_year_bounds y m d Hm Hd) as Hr.
  pose proof (days_before_year_succ y) as Hs.
  pose proof (days_before_year_mono 1 y ltac:(unfold MINYEAR in Hy; lia)) as Hlo.
  pose proof (days_before_year_mono (y + 1) 10000
                ltac:(unfold MAXYEAR in Hy; lia)) as Hhi.
  change (days_before_year 1) with 0 in Hlo.
  change (days_before_year 10000) with 3652059 in Hhi.
  unfold ymd2ord, MAXORDINAL. destruct (is_leap y); lia.
Qed.

(** Moving by [k] days inside one month. *)
Lemma add_days_same_month (y m d k : Z) :
  MINYEAR <= y <= MAXYEAR -> 1 <= m <= 12 ->
  1 <= d + k <= days_in_month y m ->
  add_days (mk_datetime y m d) k = Ok (mk_datetime y m (d + k)).
Proof.
  intros Hy Hm Hd. unfold add_days, toordinal; cbn [dt_year dt_month dt_day].
  replace (ymd2ord y m d + k) with (ymd2ord y m (d + k)) by (unfold ymd2ord; lia).
  pose proof (ymd2ord_range y m (d + k) Hy Hm Hd) as Hr.
  replace ((0 <? ymd2ord y m (d + k)) && (ymd2ord y m (d + k) <=? MAXORDINAL))
    with true by (symmetry; apply andb_true_iff; lia).
  now rewrite ord2ymd_ymd2ord.
Qed.

Lemma ymd2ord_next_month (y m : Z) :
  1 <= m <= 12 ->
  ymd2ord y m (days_in_month y m) + 1 =
  let '(y', m') := next_month y m in ymd2ord y' m' 1.
Proof.
  intros Hm. unfold next_month, ymd2ord, days_before_month, days_in_month.
  destruct (Z.eqb_spec m 12) as [-> | Hne].
  - rewrite days_before_year_succ. month_tables.
    destruct (is_leap y), (is_leap (y + 1)); lia.
  - month_cases m; try lia;
      repeat match goal with
        | |- context [Z.pos ?p + 1] =>
            let v := eval vm_compute in (Z.pos p + 1) in
            change (Z.pos p + 1) with v
        end;
      month_tables; destruct (is_leap y); lia.
Qed.

(** The day after the last day of a month is day 1 of the next month. *)
Lemma add_days_next_month (y m : Z) :
  MINYEAR <= y <= MAXYEAR -> 1 <= m <= 12 ->
  MINYEAR <= fst (next_month y m) <= MAXYEAR ->
  add_days (mk_datetime y m (days_in_month y m)) 1 =
  Ok (mk_datetime (fst (next_month y m)) (snd (next_month y m)) 1).
Proof.
  intros Hy Hm Hy'. unfold add_days, toordinal; cbn [dt_year dt_month dt_day].
  pose proof (ymd2ord_next_month y m Hm) as Hn.
  destruct (next_month y m) as [y' m'] eqn:En. cbn [fst snd] in *.
  rewrite Hn.
  assert (Hm' : 1 <= m' <= 12).
  { unfold next_month in En.
    destruct (Z.eqb_spec m 12); injection En as <- <-; lia. }
  pose proof (days_in_month_bounds y' m' Hm') as Hdim.
  pose proof (ymd2ord_range y' m' 1 Hy' Hm' ltac:(lia)) as Hr.
  replace ((0 <? ymd2ord y' m' 1) && (ymd2ord y' m' 1 <=? MAXORDINAL))
    with true by (symmetry; apply andb_true_iff; lia).
  rewrite ord2ymd_ymd2ord by lia. reflexivity.
Qed.

(** ** Last Thursday and the day after *)

Lemma previous_month_month (year month py pm : Z) :
  1 <= month <= 12 -> previous_month year month = (py, pm) ->
  1 <= pm <= 12 /\ next_month py pm = (year, month).
Proof.
  unfold previous_month, next_month. intros Hm.
  destruct (Z.eqb_spec month 1) as [-> | Hne]; intros [= <- <-].
  - split; [lia |]. cbn. f_equal. lia.
  - split; [lia |].
    destruct (Z.eqb_spec (month - 1) 12); [lia |]. f_equal. lia.
Qed.

(** The weekday arithmetic of the two helpers, on the ordinal [o] of the
    last day of the month. *)
Lemma back_to_thursday (o : Z) :
  let offset := ((o + 6) mod 7 - 3) mod 7 in
  0 <= offset <= 6 /\ (o - offset + 6) mod 7 = 3 /\ (o - offset + 1 + 6) mod 7 = 4 /\
  (offset = 0 <-> (o + 6) mod 7 = 3).
Proof. cbv zeta. Z.div_mod_to_equations. lia. Qed.

Lemma last_thursday_in_range (py pm : Z) :
  MINYEAR <= py <= MAXYEAR -> 1 <= pm <= 12 ->
  let last_day := days_in_month py pm in
  let offset := (weekday (mk_datetime py pm last_day) - 3) mod 7 in
  last_thursday py pm = Ok (mk_datetime py pm (last_day - offset)) /\
  weekday (mk_datetime py pm (last_day - offset)) = 3.
Proof.
  intros Hy Hm last_day offset.
  pose proof (days_in_month_bounds py pm Hm) as Hdim. fold last_day in Hdim.
  pose proof (back_to_thursday (ymd2ord py pm last_day)) as [Hoff [Hthu _]].
  change (((ymd2ord py pm last_day + 6) mod 7 - 3) mod 7) with offset in Hoff, Hthu.
  split.
  - unfold last_thursday. rewrite monthrange_ok by assumption. cbn [bind].
    fold last_day. rewrite datetime_new_ok by lia. cbn [bind].
    fold offset. unfold sub_days.
    rewrite add_days_same_month by lia. reflexivity.
  - unfold weekday, toordinal; cbn [dt_year dt_month dt_day].
    replace (ymd2ord py pm (last_day - offset))
      with (ymd2ord py pm last_day - offset) by (unfold ymd2ord; lia).
    exact Hthu.
Qed.

Lemma last_friday_as_last_thursday (year month py pm : Z) :
  previous_month year month = (py, pm) ->
  last_friday_of_previous_month year month =
  (t <- last_thursday py pm ;; add_days t 1).
Proof.
  unfold previous_month, last_friday_of_previous_month, last_thursday.
  intros ->.
  destruct (monthrange py pm) as [[day1 last_day] | e]; [| reflexivity].
  cbn [bind].
  destruct (datetime_new py pm last_day) as [last_date | e]; [| reflexivity].
  cbn [bind].
  destruct (sub_days last_date ((weekday last_date - 3) mod 7)); reflexivity.
Qed.

Lemma last_friday_in_range (year month py pm : Z) :
  1 <= month <= 12 -> previous_month year month = (py, pm) ->
  MINYEAR <= py <= MAXYEAR ->
  let last_day := days_in_month py pm in
  let offset := (weekday (mk_datetime py pm last_day) - 3) mod 7 in
  let friday :=
    if offset =? 0 then mk_datetime year month 1
    else mk_datetime py pm (last_day - offset + 1) in
  last_friday_of_previous_month year month = Ok friday /\
  weekday friday = 4 /\ valid_datetime friday.
Proof.
  intros Hm Hprev Hy last_day offset friday.
  destruct (previous_month_month _ _ _ _ Hm Hprev) as [Hpm Hnext].
  pose proof (days_in_month_bounds py pm Hpm) as Hdim. fold last_day in Hdim.
  pose proof (days_in_month_bounds year month Hm) as Hdim'.
  pose proof (back_to_thursday (ymd2ord py pm last_day)) as [Hoff [_ [Hfri Hzero]]].
  change (((ymd2ord py pm last_day + 6) mod 7 - 3) mod 7) with offset in Hoff, Hfri, Hzero.
  destruct (last_thursday_in_range py pm Hy Hpm) as [Hthu _].
  fold last_day offset in Hthu.
  rewrite (last_friday_as_last_thursday _ _ _ _ Hprev), Hthu. cbn [bind].
  pose proof (ymd2ord_next_month py pm Hpm) as Hord.
  rewrite Hnext in Hord. fold last_day in Hord.
  subst friday. destruct (Z.eqb_spec offset 0) as [Hz | Hnz].
  - (* the month ends on a Thursday *)
    assert (Hyear : MINYEAR <= year <= MAXYEAR).
    { assert (Hcases : year = py \/ (year = py + 1 /\ pm = 12)).
      { unfold previous_month in Hprev.
        destruct (Z.eqb_spec month 1); injection Hprev as <- <-; lia. }
      destruct Hcases as [-> | [-> ->]]; [assumption |].
      unfold MINYEAR, MAXYEAR in *.
      assert (py = 9999 \/ py < 9999) as [-> | Hlt] by lia; [| lia].
      exfalso. apply Hzero in Hz. vm_compute in Hz. discriminate. }
    rewrite Hz, Z.sub_0_r.
    pose proof (add_days_next_month py pm Hy Hpm) as Hadd.
    rewrite Hnext in Hadd. cbn [fst snd] in Hadd. fold last_day in Hadd.
    rewrite (Hadd Hyear). split; [reflexivity | split].
    + unfold weekday, toordinal; cbn [dt_year dt_month dt_day].
      rewrite <- Hord. rewrite Hz, Z.sub_0_r in Hfri. exact Hfri.
    + unfold valid_datetime; cbn [dt_year dt_month dt_day]. lia.
  - rewrite add_days_same_month by lia.
    split; [reflexivity | split].
    + unfold weekday, toordinal; cbn [dt_year dt_month dt_day].
      replace (ymd2ord py pm (last_day - offset + 1))
        with (ymd2ord py pm last_day - offset + 1) by (unfold ymd2ord; lia).
      exact Hfri.
    + unfold valid_datetime; cbn [dt_year dt_month dt_day]. fold last_day. lia.
Qed.

Lemma last_friday_out_of_range (year month py pm : Z) :
  1 <= month <= 12 -> previous_month year month = (py, pm) ->
  ~ MINYEAR <= py <= MAXYEAR ->
  last_friday_of_previous_month year month = Raise (year_error py).
Proof.
  intros Hm Hprev Hy.
  destruct (previous_month_month _ _ _ _ Hm Hprev) as [Hpm _].
  pose proof (days_in_month_bounds py pm Hpm) as Hdim.
  rewrite (last_friday_as_last_thursday _ _ _ _ Hprev).
  unfold last_thursday. rewrite monthrange_ok by assumption. cbn [bind].
  rewrite datetime_new_year_error by lia. reflexivity.
Qed.

(** C10: for every year and month in 1..12, [last_friday_of_previous_month]
    is [last_thursday] of the previous calendar month plus one day; a date
    it returns is a Friday (and it returns one whenever the previous month
    lies in the years 1..9999); when the previous month ends on a Thursday
    that date is day 1 of the given month, and otherwise it lies in the
    previous month. *)
Theorem last_friday_is_day_after_last_thursday (year month : Z) :
  1 <= month <= 12 ->
  let py := fst (previous_month year month) in
  let pm := snd (previous_month year month) in
  let month_end := mk_datetime py pm (days_in_month py pm) in
  last_friday_of_previous_month year month =
    (t <- last_thursday py pm ;; add_days t 1) /\
  (MINYEAR <= py <= MAXYEAR ->
   exists t f : datetime,
     last_thursday py pm = Ok t /\ weekday t = 3 /\
     (dt_year t, dt_month t) = (py, pm) /\
     last_friday_of_previous_month year month = Ok f) /\
  (forall f : datetime,
     last_friday_of_previous_month year month = Ok f ->
     weekday f = 4 /\ valid_datetime f /\
     (weekday month_end = 3 -> f = mk_datetime year month 1) /\
     (weekday month_end <> 3 -> (dt_year f, dt_month f) = (py, pm))).
Proof.
  intros Hm py pm month_end.
  assert (Hprev : previous_month year month = (py, pm))
    by (subst py pm; now destruct (previous_month year month)).
  destruct (previous_month_month _ _ _ _ Hm Hprev) as [Hpm _].
  split; [now apply last_friday_as_last_thursday | split].
  - intros Hy.
    destruct (last_thursday_in_range py pm Hy Hpm) as [Hthu Hwd].
    destruct (last_friday_in_range _ _ _ _ Hm Hprev Hy) as [Hfri _].
    eexists. eexists. split; [exact Hthu |]. split; [exact Hwd |].
    split; [reflexivity | exact Hfri].
  - intros f Hf.
    assert (Hy : MINYEAR <= py <= MAXYEAR).
    { destruct (Z_le_dec MINYEAR py) as [Hlo | Hlo];
        [destruct (Z_le_dec py MAXYEAR) as [Hhi | Hhi]; [lia |] |];
        rewrite (last_friday_out_of_range _ _ _ _ Hm Hprev) in Hf by lia;
        discriminate. }
    destruct (last_friday_in_range _ _ _ _ Hm Hprev Hy) as [Hfri [Hwd Hv]].
    rewrite Hfri in Hf. injection Hf as <-.
    split; [exact Hwd | split; [exact Hv |]].
    pose proof (back_to_thursday (ymd2ord py pm (days_in_month py pm)))
      as [_ [_ [_ Hzero]]].
    change ((ymd2ord py pm (days_in_month py pm) + 6) mod 7)
      with (weekday month_end) in Hzero.
    destruct (Z.eqb_spec ((weekday (mk_datetime py pm (days_in_month py pm)) - 3) mod 7) 0)
      as [Hz | Hnz].
    + split; [reflexivity |]. intros Hne. apply Hzero in Hz. contradiction.
    + split; [| reflexivity]. intros He. apply Hzero in He. contradiction.
Qed.

Lemma last_friday_is_day_after_last_thursday_witness :
  1 <= 11 <= 12 /\
  last_thursday 2024 10 = Ok (mk_datetime 2024 10 31) /\
  last_friday_of_previous_month 2024 11 = Ok (mk_datetime 2024 11 1) /\
  weekday (mk_datetime 2024 11 1) = 4.
Proof.
  destruct (last_friday_is_day_after_last_thursday 2024 11 ltac:(lia))
    as [Heq [_ Hret]].
  assert (Hf : last_friday_of_previous_month 2024 11 = Ok (mk_datetime 2024 11 1))
    by (vm_compute; reflexivity).
  split; [lia |]. split; [vm_compute; reflexivity |]. split; [exact Hf |].
  exact (proj1 (Hret _ Hf)).
Defined.

(** * Further properties of the source *)

(** ** The month shift as a count of months *)

Lemma shift_twice (y m a b : Z) :
  (let '(y', m') := get_adjusted_year_month y m a in
   get_adjusted_year_month y' m' b) = get_adjusted_year_month y m (a + b).
Proof.
  rewrite !get_adjusted_year_month_closed. unfold shift_closed_form.
  rewrite get_adjusted_year_month_closed. unfold shift_closed_form.
  set (t := m - 1 + a).
  replace (t mod 12 + 1 - 1 + b) with (t + b + - (t / 12) * 12)
    by (pose proof (Z.div_mod t 12 ltac:(lia)); lia).
  replace (m - 1 + (a + b)) with (t + b) by (subst t; lia).
  rewrite Z.div_add, Z.mod_add by lia.
  f_equal. lia.
Qed.

(** X1: two month shifts in a row are one shift by the sum of the offsets,
    whatever the integers involved; in particular a shift by a whole number
    of years keeps a month of 1..12 and moves the year. *)
Theorem get_adjusted_year_month_compose (y m a b : Z) :
  (let '(y', m') := get_adjusted_year_month y m a in
   get_adjusted_year_month y' m' b) = get_adjusted_year_month y m (a + b) /\
  (1 <= m <= 12 -> forall k, get_adjusted_year_month y m (12 * k) = (y + k, m)).
Proof.
  split; [apply shift_twice |].
  intros Hm k. rewrite get_adjusted_year_month_closed. unfold shift_closed_form.
  replace (m - 1 + 12 * k) with (m - 1 + k * 12) by lia.
  rewrite Z.div_add, Z.mod_add by lia.
  rewrite Z.div_small, Z.mod_small by lia. f_equal; lia.
Qed.

(** X2: for every integer month handed in, also one outside 1..12, the
    result has its month in 1..12 and counts exactly [offset] months more
    than the input; it is the only such pair. *)
Theorem get_adjusted_year_month_month_count (y m offset : Z) :
  let '(y', m') := get_adjusted_year_month y m offset in
  1 <= m' <= 12 /\
  month_count y' m' = month_count y m + offset /\
  forall y'' m'' : Z,
    1 <= m'' <= 12 -> month_count y'' m'' = month_count y m + offset ->
    (y'', m'') = (y', m').
Proof.
  rewrite get_adjusted_year_month_closed. unfold shift_closed_form, month_count.
  pose proof (Z.div_mod (m - 1 + offset) 12 ltac:(lia)) as Hdm.
  pose proof (Z.mod_pos_bound (m - 1 + offset) 12 ltac:(lia)) as Hb.
  split; [lia |]. split; [lia |].
  intros y'' m'' Hm'' Hc. f_equal; lia.
Qed.

(** X3: a larger offset never gives an earlier month: the results are
    ordered as the offsets are, and equal only for equal offsets. *)
Theorem get_adjusted_year_month_monotone (y m a b : Z) :
  a < b ->
  let '(ya, ma) := get_adjusted_year_month y m a in
  let '(yb, mb) := get_adjusted_year_month y m b in
  ya < yb \/ (ya = yb /\ ma < mb).
Proof.
  intros Hab. rewrite !get_adjusted_year_month_closed. unfold shift_closed_form.
  pose proof (Z.div_mod (m - 1 + a) 12 ltac:(lia)) as Ha.
  pose proof (Z.mod_pos_bound (m - 1 + a) 12 ltac:(lia)) as Ha'.
  pose proof (Z.div_mod (m - 1 + b) 12 ltac:(lia)) as Hb.
  pose proof (Z.mod_pos_bound (m - 1 + b) 12 ltac:(lia)) as Hb'.
  lia.
Qed.

Lemma get_adjusted_year_month_monotone_witness :
  -14 < -1 /\
  get_adjusted_year_month 2024 1 (-14) = (2022, 11) /\
  get_adjusted_year_month 2024 1 (-1) = (2023, 12) /\
  (2022 < 2023 \/ (2022 = 2023 /\ 11 < 12)).
Proof.
  pose proof (get_adjusted_year_month_monotone 2024 1 (-14) (-1) ltac:(lia)) as H.
  assert (Ha : get_adjusted_year_month 2024 1 (-14) = (2022, 11))
    by (rewrite get_adjusted_year_month_closed; reflexivity).
  assert (Hb : get_adjusted_year_month 2024 1 (-1) = (2023, 12))
    by (rewrite get_adjusted_year_month_closed; reflexivity).
  rewrite Ha, Hb in H.
  split; [lia |]. split; [exact Ha |]. split; [exact Hb | exact H].
Defined.

(** ** What [get_target_date] can raise *)

Lemma int_raises (s : string) (e : exn) :
  int_ s = Raise e ->
  exists m, e = ValueError m /\ kind_of_msg m = Some ParseError.
Proof.
  intros He.
  assert (Hn : parse_int s = None) by (unfold parse_int; now rewrite He).
  apply parse_int_None in Hn as [m [Hm Hk]].
  exists m. split; [congruence | exact Hk].
Qed.

Lemma parse_type1_raises (pattern : string) (e : exn) :
  parse_type1 pattern = Raise e ->
  exists inner kind,
    e = ValueError (Type1Msg inner) /\ kind_of_msg inner = Some kind /\
    kind <> InvalidArgument.
Proof.
  rewrite parse_type1_unfold.
  destruct (split "/" pattern) as [| a [| b [| c [| x l]]]];
    try (intros [= <-]; exists (UnpackMsg (List.length (split "/" pattern)));
         eexists; repeat split; discriminate).
  - intros [= <-]. eexists. exists FormatError. repeat split. discriminate.
  - intros [= <-]. eexists. exists FormatError. repeat split. discriminate.
  - intros [= <-]. eexists. exists FormatError. repeat split. discriminate.
  - destruct (int_ a) as [off | ea] eqn:Ha.
    + destruct (int_ b) as [wd | eb] eqn:Hb.
      * destruct (negb ((1 <=? wd) && (wd <=? 5))).
        { intros [= <-]. exists DayMsg, ValidationError. repeat split. discriminate. }
        destruct (negb (existsb (String.eqb c) ["1"; "2"; "3"; "L"]%string));
          [| discriminate].
        intros [= <-]. exists WeekMsg, ValidationError. repeat split. discriminate.
      * destruct (int_raises _ _ Hb) as [m [-> Hk]]. intros [= <-].
        exists m, ParseError. repeat split; [exact Hk | discriminate].
    + destruct (int_raises _ _ Ha) as [m [-> Hk]]. intros [= <-].
      exists m, ParseError. repeat split; [exact Hk | discriminate].
  - intros [= <-]. eexists. exists FormatError. repeat split. discriminate.
Qed.

Lemma parse_type2_raises (pattern : string) (e : exn) :
  parse_type2 pattern = Raise e ->
  exists inner kind,
    e = ValueError (Type2Msg inner) /\ kind_of_msg inner = Some kind /\
    kind <> InvalidArgument.
Proof.
  rewrite parse_type2_unfold.
  destruct (negb (endswith pattern "F" || endswith pattern "L")).
  - intros [= <-]. exists SuffixMsg, FormatError. repeat split. discriminate.
  - destruct (int_ (drop_last pattern)) as [off | e'] eqn:Hp; [discriminate |].
    destruct (int_raises _ _ Hp) as [m [-> Hk]]. intros [= <-].
    exists m, ParseError. repeat split; [exact Hk | discriminate].
Qed.

(** The four ways a call can end, with what decides each. *)
Lemma get_target_date_cases (start_date : datetime) (pattern : string)
    (query_type : Z) :
  let r := get_target_date start_date pattern query_type in
  let year_of offset :=
    fst (get_adjusted_year_month (dt_year start_date) (dt_month start_date) offset) in
  (exists d, r = Ok d /\ valid_datetime d) \/
  (r = Raise (ValueError QueryTypeMsg) /\ query_type <> 1 /\ query_type <> 2) \/
  (exists inner kind,
     (r = Raise (ValueError (Type1Msg inner)) /\ query_type = 1 \/
      r = Raise (ValueError (Type2Msg inner)) /\ query_type = 2) /\
     kind_of_msg inner = Some kind /\ kind <> InvalidArgument) \/
  (exists offset,
     r = Raise (year_error (year_of offset)) /\
     ~ MINYEAR <= year_of offset <= MAXYEAR /\
     (query_type = 1 /\ (exists wd w, type1_pattern pattern offset wd w) \/
      query_type = 2 /\ (exists edge, type2_pattern pattern offset edge))).
Proof.
  intros r year_of. subst r.
  destruct (Z.eq_dec query_type 1) as [-> | H1].
  - destruct (parse_type1 pattern) as [v | e] eqn:Hp.
    + apply parse_type1_ok_inv in Hp as [off [wd [w [_ Hp]]]].
      destruct (get_adjusted_year_month (dt_year start_date) (dt_month start_date) off)
        as [y m] eqn:Hs.
      assert (Hyear : year_of off = y) by (subst year_of; cbn beta; now rewrite Hs).
      assert (Hm := get_adjusted_year_month_month _ _ _ _ _ Hs).
      destruct (get_target_date_type1_total _ _ _ _ _ _ _ Hp Hs) as [_ Hout].
      destruct (Z_le_dec MINYEAR y) as [Hlo | Hlo];
        [destruct (Z_le_dec y MAXYEAR) as [Hhi | Hhi] |].
      * left. rewrite (get_target_date_type1 _ _ _ _ _ _ _ Hp Hs).
        pose proof (days_in_month_bounds y m Hm) as Hdim.
        rewrite datetime_new_ok by lia. cbn [bind].
        destruct Hp as [a [b [_ [_ [_ [Hwd Hw]]]]]].
        assert (Hv : valid_datetime (mk_datetime y m 1))
          by (unfold valid_datetime; cbn [dt_year dt_month dt_day]; lia).
        destruct (resolve_type1_ok _ (wd - 1) w Hv ltac:(lia) Hw) as [d [Hr Hin]].
        cbn [dt_year dt_month] in Hr, Hin. apply weekday_days_In in Hin as [Hd _].
        exists (mk_datetime y m d). split; [exact Hr |].
        unfold valid_datetime; cbn [dt_year dt_month dt_day]. lia.
      * right. right. right. exists off. rewrite Hyear.
        split; [apply Hout; lia | split; [lia | left; eauto]].
      * right. right. right. exists off. rewrite Hyear.
        split; [apply Hout; lia | split; [lia | left; eauto]].
    + right. right. left. rewrite (get_target_date_type1_parse_error _ _ Hp).
      destruct (parse_type1_raises _ _ Hp) as [inner [kind [-> [Hk Hne]]]].
      exists inner, kind. auto.
  - destruct (Z.eq_dec query_type 2) as [-> | H2].
    + destruct (parse_type2 pattern) as [v | e] eqn:Hp.
      * apply parse_type2_ok_inv in Hp as [off [edge [_ Hp]]].
        destruct (get_adjusted_year_month (dt_year start_date) (dt_month start_date) off)
          as [y m] eqn:Hs.
        assert (Hyear : year_of off = y) by (subst year_of; cbn beta; now rewrite Hs).
        assert (Hm := get_adjusted_year_month_month _ _ _ _ _ Hs).
        pose proof (days_in_month_bounds y m Hm) as Hdim.
        destruct (get_target_date_type2_total _ _ _ _ _ _ Hp Hs) as [_ Hout].
        destruct (Z_le_dec MINYEAR y) as [Hlo | Hlo];
          [destruct (Z_le_dec y MAXYEAR) as [Hhi | Hhi] |].
        -- left. rewrite (get_target_date_type2 _ _ _ _ _ _ Hp Hs).
           destruct (Ascii.eqb edge "F");
             rewrite datetime_new_ok by lia; eexists; (split; [reflexivity |]);
             unfold valid_datetime; cbn [dt_year dt_month dt_day]; lia.
        -- right. right. right. exists off. rewrite Hyear.
           split; [apply Hout; lia | split; [lia | right; eauto]].
        -- right. right. right. exists off. rewrite Hyear.
           split; [apply Hout; lia | split; [lia | right; eauto]].
      * right. right. left. rewrite (get_target_date_type2_parse_error _ _ Hp).
        destruct (parse_type2_raises _ _ Hp) as [inner [kind [-> [Hk Hne]]]].
        exists inner, kind. auto.
    + right. left. split; [| auto]. unfold get_target_date.
      destruct (Z.eqb_spec query_type 1); [contradiction |].
      destruct (Z.eqb_spec query_type 2); [contradiction | reflexivity].
Qed.

(** X4: whatever the reference date, the pattern and the query type, a call
    of [get_target_date] returns a valid date, raises a [ValueError] (the
    one about the query type, exactly when it is neither 1 nor 2; a wrapped
    format, parse or validation message; or the range error of [datetime])
    or raises [OverflowError].  The last happens exactly when the pattern is
    well formed and the target year does not fit a C [int].  It never raises
    [IndexError]. *)
Theorem get_target_date_outcomes (start_date : datetime) (pattern : string)
    (query_type : Z) :
  let r := get_target_date start_date pattern query_type in
  let year_of offset :=
    fst (get_adjusted_year_month (dt_year start_date) (dt_month start_date) offset) in
  ((exists d, r = Ok d /\ valid_datetime d) \/
   (exists m, r = Raise (ValueError m) /\
      (m = QueryTypeMsg \/ m = DateRangeMsg \/
       exists inner kind,
         (m = Type1Msg inner /\ query_type = 1 \/
          m = Type2Msg inner /\ query_type = 2) /\
         kind_of_msg inner = Some kind /\ kind <> InvalidArgument)) \/
   r = Raise OverflowError) /\
  (r = Raise (ValueError QueryTypeMsg) <-> query_type <> 1 /\ query_type <> 2) /\
  (r = Raise OverflowError <->
   exists offset,
     fits_c_int (year_of offset) = false /\
     (query_type = 1 /\ (exists wd w, type1_pattern pattern offset wd w) \/
      query_type = 2 /\ (exists edge, type2_pattern pattern offset edge))) /\
  r <> Raise IndexError.
Proof.
  intros r year_of.
  pose proof (get_target_date_cases start_date pattern query_type) as Hc.
  cbv zeta in Hc. fold r in Hc. fold year_of in Hc.
  split; [| split; [| split]].
  - destruct Hc as [Hok | [[Hq _] | [[inner [kind [Hr Hk]]] | [off [Hr _]]]]].
    + left. exact Hok.
    + right. left. exists QueryTypeMsg. auto.
    + right. left. destruct Hr as [[Hr Hq] | [Hr Hq]].
      * exists (Type1Msg inner). split; [exact Hr |]. right. right.
        exists inner, kind. tauto.
      * exists (Type2Msg inner). split; [exact Hr |]. right. right.
        exists inner, kind. tauto.
    + destruct (year_error_cases (year_of off)) as [He | He]; rewrite He in Hr.
      * right. left. exists DateRangeMsg. auto.
      * right. right. exact Hr.
  - split.
    + intros Hq.
      destruct Hc as [[d [Hd _]] | [[_ Hne] | [[inner [kind [Hr _]]] | [off [Hr _]]]]].
      * congruence.
      * exact Hne.
      * destruct Hr as [[Hr _] | [Hr _]]; rewrite Hr in Hq; discriminate.
      * rewrite Hr in Hq.
        destruct (year_error_cases (year_of off)) as [He | He]; rewrite He in Hq;
          discriminate.
    + intros [H1 H2]. subst r. unfold get_target_date.
      destruct (Z.eqb_spec query_type 1); [contradiction |].
      destruct (Z.eqb_spec query_type 2); [contradiction | reflexivity].
  - split.
    + intros Ho.
      destruct Hc as [[d [Hd _]] | [[Hq _] | [[inner [kind [Hr _]]] | [off [Hr [_ Hp]]]]]].
      * congruence.
      * congruence.
      * destruct Hr as [[Hr _] | [Hr _]]; rewrite Hr in Ho; discriminate.
      * exists off. split; [| exact Hp].
        rewrite Hr in Ho. unfold year_error in Ho.
        destruct (fits_c_int (year_of off)); [discriminate | reflexivity].
    + intros [off [Hfit Hp]].
      assert (Hy : ~ MINYEAR <= year_of off <= MAXYEAR).
      { intros Hy. rewrite fits_c_int_small in Hfit by (unfold MINYEAR, MAXYEAR in Hy; lia).
        discriminate. }
      assert (He : year_error (year_of off) = OverflowError)
        by (unfold year_error; now rewrite Hfit).
      destruct (get_adjusted_year_month (dt_year start_date) (dt_month start_date) off)
        as [y m] eqn:Hs.
      assert (Hyear : year_of off = y) by (subst year_of; cbn beta; now rewrite Hs).
      rewrite Hyear in Hy, He. subst r.
      destruct Hp as [[-> [wd [w Hp]]] | [-> [edge Hp]]].
      * destruct (get_target_date_type1_total _ _ _ _ _ _ _ Hp Hs) as [_ Hout].
        rewrite (Hout Hy). now rewrite He.
      * destruct (get_target_date_type2_total _ _ _ _ _ _ Hp Hs) as [_ Hout].
        rewrite (Hout Hy). now rewrite He.
  - intros Hi.
    destruct Hc as [[d [Hd _]] | [[Hq _] | [[inner [kind [Hr _]]] | [off [Hr _]]]]].
    + congruence.
    + congruence.
    + destruct Hr as [[Hr _] | [Hr _]]; rewrite Hr in Hi; discriminate.
    + rewrite Hr in Hi.
      destruct (year_error_cases (year_of off)) as [He | He]; rewrite He in Hi;
        discriminate.
Qed.

Lemma get_target_date_outcomes_witness :
  get_target_date (mk_datetime 2024 11 20) "25769779488F" 2 = Raise OverflowError /\
  get_target_date (mk_datetime 2024 11 20) "-30000F" 2 <> Raise OverflowError /\
  get_target_date (mk_datetime 2024 11 20) "25769779488F" 1 <> Raise OverflowError.
Proof.
  assert (Hshift : forall k,
            fst (get_adjusted_year_month 2024 11 k) = 2024 + (10 + k) / 12)
    by (intros k; rewrite get_adjusted_year_month_closed; reflexivity).
  split; [| split].
  - apply (proj1 (proj2 (proj2 (get_target_date_outcomes
                                  (mk_datetime 2024 11 20) "25769779488F" 2)))).
    exists 25769779488. cbn [dt_year dt_month]. rewrite Hshift.
    split; [reflexivity |]. right. split; [reflexivity |].
    exists "F"%char. split; [auto | split; reflexivity].
  - intros Ho.
    apply (proj1 (proj2 (proj2 (get_target_date_outcomes
                                  (mk_datetime 2024 11 20) "-30000F" 2)))) in Ho.
    destruct Ho as [off [Hfit [[Hq _] | [_ [edge [_ [_ Hp]]]]]]]; [discriminate |].
    vm_compute in Hp. injection Hp as <-.
    cbn [dt_year dt_month] in Hfit. rewrite Hshift in Hfit. discriminate.
  - intros Ho.
    apply (proj1 (proj2 (proj2 (get_target_date_outcomes
                                  (mk_datetime 2024 11 20) "25769779488F" 1)))) in Ho.
    destruct Ho as [off [_ [[_ [wd [w [a [b [Hs _]]]]]] | [Hq _]]]]; discriminate.
Defined.

(** ** Reference date, offsets and ordinals *)

Lemma get_adjusted_year_month_compose_eq (y m a b y1 m1 : Z) :
  get_adjusted_year_month y m a = (y1, m1) ->
  get_adjusted_year_month y1 m1 b = get_adjusted_year_month y m (a + b).
Proof.
  intros H. pose proof (shift_twice y m a b) as Hc.
  now rewrite H in Hc.
Qed.

(** X5: only the month of the reference date counts, and moving it by [k]
    months is the same as adding [k] to the month offset of the pattern:
    for both query types the call on the moved reference date equals the
    call on the original one with the larger offset. *)
Theorem get_target_date_reference_shift
    (start_date moved : datetime) (k month_offset : Z) :
  (dt_year moved, dt_month moved) =
    get_adjusted_year_month (dt_year start_date) (dt_month start_date) k ->
  (forall (p p' : string) (wd : Z) (week_pos : string),
     type1_pattern p month_offset wd week_pos ->
     type1_pattern p' (k + month_offset) wd week_pos ->
     get_target_date moved p 1 = get_target_date start_date p' 1) /\
  (forall (p p' : string) (edge : ascii),
     type2_pattern p month_offset edge ->
     type2_pattern p' (k + month_offset) edge ->
     get_target_date moved p 2 = get_target_date start_date p' 2).
Proof.
  intros Hmoved. symmetry in Hmoved.
  pose proof (get_adjusted_year_month_compose_eq _ _ _ month_offset _ _ Hmoved) as Hc.
  destruct (get_adjusted_year_month (dt_year moved) (dt_month moved) month_offset)
    as [y m] eqn:Hs.
  symmetry in Hc. split.
  - intros p p' wd w Hp Hp'.
    rewrite (get_target_date_type1 moved _ _ _ _ _ _ Hp Hs).
    rewrite (get_target_date_type1 start_date _ _ _ _ _ _ Hp' Hc). reflexivity.
  - intros p p' edge Hp Hp'.
    rewrite (get_target_date_type2 moved _ _ _ _ _ Hp Hs).
    rewrite (get_target_date_type2 start_date _ _ _ _ _ Hp' Hc). reflexivity.
Qed.

Lemma get_target_date_reference_shift_witness :
  get_target_date (mk_datetime 2024 9 5) "0/3/2" 1 =
    get_target_date (mk_datetime 2024 11 20) "-2/3/2" 1 /\
  get_target_date (mk_datetime 2024 9 5) "0L" 2 =
    get_target_date (mk_datetime 2024 11 20) "-2L" 2.
Proof.
  destruct (get_target_date_reference_shift
              (mk_datetime 2024 11 20) (mk_datetime 2024 9 5) (-2) 0) as [H1 H2].
  - cbn [dt_year dt_month]. rewrite get_adjusted_year_month_closed. reflexivity.
  - split.
    + apply (H1 "0/3/2"%string "-2/3/2"%string 3 "2"%string).
      * exists "0"%string, "3"%string.
        split; [reflexivity |]. split; [reflexivity |]. split; [reflexivity |].
        split; [lia |]. cbn. auto.
      * exists "-2"%string, "3"%string.
        split; [reflexivity |]. split; [reflexivity |]. split; [reflexivity |].
        split; [lia |]. cbn. auto.
    + apply (H2 "0L"%string "-2L"%string "L"%char).
      * split; [auto | split; reflexivity].
      * split; [auto | split; reflexivity].
Defined.

(** The column of a weekday, written out: it starts in the first seven days
    and goes on in steps of seven up to the last seven days. *)
Lemma column_days_shape (day1 ndays dow : Z) :
  0 <= day1 <= 6 -> 28 <= ndays <= 31 -> 0 <= dow <= 6 ->
  let first := (dow - day1) mod 7 + 1 in
  let final := ndays - (day1 + ndays - 1 - dow) mod 7 in
  (column_days day1 ndays dow = [first; first + 7; first + 14; first + 21]
   /\ final = first + 21) \/
  (column_days day1 ndays dow = [first; first + 7; first + 14; first + 21; first + 28]
   /\ final = first + 28).
Proof.
  intros H1 Hn Hd.
  weekday_cases day1; ndays_cases ndays; weekday_cases dow; vm_compute;
    first [left; split; reflexivity | right; split; reflexivity].
Qed.

Lemma resolve_type1_select (y m day_of_week : Z) (week_pos : string) :
  1 <= m <= 12 -> 0 <= day_of_week <= 6 ->
  resolve_type1 (mk_datetime y m 1) day_of_week week_pos =
  (target_day <- select_target_day (weekday_days y m day_of_week) week_pos ;;
   datetime_new y m target_day).
Proof.
  intros Hm Hd. unfold resolve_type1; cbn [dt_year dt_month].
  rewrite monthcalendar_ok by assumption. cbn [bind].
  rewrite collect_weekday_days by assumption. reflexivity.
Qed.

(** The days picked by the four week tokens, from the shape of the column. *)
Lemma select_target_day_shape (y m day_of_week : Z) :
  1 <= m <= 12 -> 0 <= day_of_week <= 6 ->
  let occ := weekday_days y m day_of_week in
  let first := (day_of_week - weekday (mk_datetime y m 1)) mod 7 + 1 in
  let final :=
    days_in_month y m
    - (weekday (mk_datetime y m 1) + days_in_month y m - 1 - day_of_week) mod 7 in
  select_target_day occ "1" = Ok first /\
  select_target_day occ "2" = Ok (first + 7) /\
  select_target_day occ "3" = Ok (first + 14) /\
  select_target_day occ "L" = Ok final /\
  (final = first + 21 \/ final = first + 28).
Proof.
  intros Hm Hd occ first final.
  pose proof (column_days_shape (weekday (mk_datetime y m 1)) (days_in_month y m)
                day_of_week (weekday_range _) (days_in_month_bounds y m Hm) Hd) as Hshape.
  rewrite column_days_weekday_days in Hshape. fold occ first final in Hshape.
  assert (H1 : In "1"%string ["1"; "2"; "3"]%string) by (cbn; auto).
  assert (H2 : In "2"%string ["1"; "2"; "3"]%string) by (cbn; auto).
  assert (H3 : In "3"%string ["1"; "2"; "3"]%string) by (cbn; auto).
  rewrite (select_target_day_numeric occ "1" 1 H1 eq_refl).
  rewrite (select_target_day_numeric occ "2" 2 H2 eq_refl).
  rewrite (select_target_day_numeric occ "3" 3 H3 eq_refl).
  rewrite select_target_day_L.
  destruct Hshape as [[-> Hf] | [-> Hf]]; rewrite Hf;
    (repeat split; [reflexivity .. | auto]).
Qed.

Lemma get_target_date_type1_day (start_date : datetime) (pattern : string)
    (month_offset wd : Z) (week_pos : string) (y m d : Z) :
  type1_pattern pattern month_offset wd week_pos ->
  get_adjusted_year_month (dt_year start_date) (dt_month start_date) month_offset
    = (y, m) ->
  MINYEAR <= y <= MAXYEAR ->
  select_target_day (weekday_days y m (wd - 1)) week_pos = Ok d ->
  1 <= d <= days_in_month y m ->
  get_target_date start_date pattern 1 = Ok (mk_datetime y m d).
Proof.
  intros Hp Hs Hy Hsel Hd.
  assert (Hm := get_adjusted_year_month_month _ _ _ _ _ Hs).
  assert (Hwd : 1 <= wd <= 5) by (destruct Hp as [a [b Hp]]; tauto).
  pose proof (days_in_month_bounds y m Hm) as Hdim.
  rewrite (get_target_date_type1 _ _ _ _ _ _ _ Hp Hs).
  rewrite datetime_new_ok by lia. cbn [bind].
  rewrite resolve_type1_select by lia. rewrite Hsel. cbn [bind].
  now apply datetime_new_ok.
Qed.

(** X6: in a target month within [datetime]'s range the first occurrence of
    the weekday falls on day 1..7, the second and third exactly 7 and 14
    days later, and the last one 21 or 28 days after the first, within the
    last seven days of the month. *)
Theorem get_target_date_ordinal_spacing
    (start_date : datetime) (month_offset wd y m : Z) (p1 p2 p3 pL : string) :
  type1_pattern p1 month_offset wd "1" ->
  type1_pattern p2 month_offset wd "2" ->
  type1_pattern p3 month_offset wd "3" ->
  type1_pattern pL month_offset wd "L" ->
  get_adjusted_year_month (dt_year start_date) (dt_month start_date) month_offset
    = (y, m) ->
  MINYEAR <= y <= MAXYEAR ->
  exists first final : Z,
    get_target_date start_date p1 1 = Ok (mk_datetime y m first) /\
    get_target_date start_date p2 1 = Ok (mk_datetime y m (first + 7)) /\
    get_target_date start_date p3 1 = Ok (mk_datetime y m (first + 14)) /\
    get_target_date start_date pL 1 = Ok (mk_datetime y m final) /\
    1 <= first <= 7 /\
    (final = first + 21 \/ final = first + 28) /\
    days_in_month y m - 7 < final <= days_in_month y m.
Proof.
  intros H1 H2 H3 HL Hs Hy.
  assert (Hm := get_adjusted_year_month_month _ _ _ _ _ Hs).
  assert (Hwd : 1 <= wd <= 5) by (destruct H1 as [a [b H1]]; tauto).
  pose proof (days_in_month_bounds y m Hm) as Hdim.
  destruct (select_target_day_shape y m (wd - 1) Hm ltac:(lia))
    as [S1 [S2 [S3 [SL Hfinal]]]].
  set (first := (wd - 1 - weekday (mk_datetime y m 1)) mod 7 + 1) in *.
  set (final := days_in_month y m
                - (weekday (mk_datetime y m 1) + days_in_month y m - 1 - (wd - 1)) mod 7)
    in *.
  assert (Hfirst : 1 <= first <= 7)
    by (subst first;
        pose proof (Z.mod_pos_bound (wd - 1 - weekday (mk_datetime y m 1)) 7); lia).
  assert (Hlast : days_in_month y m - 7 < final <= days_in_month y m)
    by (subst final;
        pose proof (Z.mod_pos_bound
                      (weekday (mk_datetime y m 1) + days_in_month y m - 1 - (wd - 1)) 7);
        lia).
  exists first, final.
  split; [apply (get_target_date_type1_day _ _ _ _ _ _ _ _ H1 Hs Hy S1); lia |].
  split; [apply (get_target_date_type1_day _ _ _ _ _ _ _ _ H2 Hs Hy S2); lia |].
  split; [apply (get_target_date_type1_day _ _ _ _ _ _ _ _ H3 Hs Hy S3); lia |].
  split; [apply (get_target_date_type1_day _ _ _ _ _ _ _ _ HL Hs Hy SL); lia |].
  auto.
Qed.

Lemma get_target_date_ordinal_spacing_witness :
  exists first final : Z,
    get_target_date (mk_datetime 2024 11 20) "0/5/1" 1 = Ok (mk_datetime 2024 11 first) /\
    get_target_date (mk_datetime 2024 11 20) "0/5/2" 1
      = Ok (mk_datetime 2024 11 (first + 7)) /\
    get_target_date (mk_datetime 2024 11 20) "0/5/3" 1
      = Ok (mk_datetime 2024 11 (first + 14)) /\
    get_target_date (mk_datetime 2024 11 20) "0/5/L" 1 = Ok (mk_datetime 2024 11 final) /\
    1 <= first <= 7 /\
    (final = first + 21 \/ final = first + 28) /\
    days_in_month 2024 11 - 7 < final <= days_in_month 2024 11.
Proof.
  assert (Hpat : forall w, In w week_tokens ->
            type1_pattern ("0/5/" ++ w) 0 5 w).
  { intros w Hw. exists "0"%string, "5"%string.
    split; [| split; [reflexivity | split; [reflexivity | split; [lia | exact Hw]]]].
    unfold week_tokens in Hw. cbn [In] in Hw.
    destruct Hw as [<- | [<- | [<- | [<- | []]]]]; reflexivity. }
  apply (get_target_date_ordinal_spacing (mk_datetime 2024 11 20) 0 5 2024 11
           "0/5/1" "0/5/2" "0/5/3" "0/5/L").
  - apply (Hpat "1"%string). cbn. auto.
  - apply (Hpat "2"%string). cbn. auto.
  - apply (Hpat "3"%string). cbn. auto.
  - apply (Hpat "L"%string). cbn. auto.
  - rewrite get_adjusted_year_month_closed. reflexivity.
  - unfold MINYEAR, MAXYEAR. lia.
Defined.

Lemma get_adjusted_year_month_next (y m : Z) :
  1 <= m <= 12 -> get_adjusted_year_month y m 1 = next_month y m.
Proof.
  intros Hm. rewrite get_adjusted_year_month_closed.
  unfold shift_closed_form, next_month.
  destruct (Z.eqb_spec m 12) as [-> | Hne]; [reflexivity |].
  replace (m - 1 + 1) with m by lia.
  rewrite Z.div_small, Z.mod_small by lia. f_equal. lia.
Qed.

(** X7: the last day of one month and the first day of the next are
    consecutive dates: with both months in [datetime]'s range, the date of
    edge L at offset [k] plus one day is the date of edge F at offset
    [k + 1]. *)
Theorem last_day_then_first_day
    (start_date : datetime) (k y m y' m' : Z) (pL pF : string) :
  type2_pattern pL k "L" ->
  type2_pattern pF (k + 1) "F" ->
  get_adjusted_year_month (dt_year start_date) (dt_month start_date) k = (y, m) ->
  get_adjusted_year_month (dt_year start_date) (dt_month start_date) (k + 1)
    = (y', m') ->
  MINYEAR <= y -> y' <= MAXYEAR ->
  exists last_date first_date : datetime,
    get_target_date start_date pL 2 = Ok last_date /\
    get_target_date start_date pF 2 = Ok first_date /\
    add_days last_date 1 = Ok first_date /\
    sub_days first_date 1 = Ok last_date /\
    toordinal first_date = toordinal last_date + 1.
Proof.
  intros HL HF Hs Hs' Hlo Hhi.
  assert (Hm := get_adjusted_year_month_month _ _ _ _ _ Hs).
  assert (Hm' := get_adjusted_year_month_month _ _ _ _ _ Hs').
  pose proof (get_adjusted_year_month_compose_eq _ _ _ 1 _ _ Hs) as Hnext.
  rewrite Hs', get_adjusted_year_month_next in Hnext by assumption.
  assert (Hyy : y <= y' <= y + 1)
    by (unfold next_month in Hnext;
        destruct (m =? 12); injection Hnext as <- <-; lia).
  pose proof (days_in_month_bounds y m Hm) as Hdim.
  pose proof (days_in_month_bounds y' m' Hm') as Hdim'.
  rewrite (get_target_date_type2 _ _ _ _ _ _ HL Hs).
  rewrite (get_target_date_type2 _ _ _ _ _ _ HF Hs').
  change (Ascii.eqb "L" "F") with false. change (Ascii.eqb "F" "F") with true.
  cbv iota. rewrite !datetime_new_ok by (unfold MINYEAR, MAXYEAR in *; lia).
  exists (mk_datetime y m (days_in_month y m)), (mk_datetime y' m' 1).
  pose proof (add_days_next_month y m) as Hadd. rewrite Hnext in Hadd.
  cbn [fst snd] in Hadd.
  pose proof (ymd2ord_next_month y m Hm) as Hord. rewrite Hnext in Hord.
  split; [reflexivity | split; [reflexivity | split; [| split]]].
  - apply Hadd; unfold MINYEAR, MAXYEAR in *; lia.
  - unfold sub_days, add_days, toordinal; cbn [dt_year dt_month dt_day].
    rewrite <- Hord.
    replace (ymd2ord y m (days_in_month y m) + 1 + - (1))
      with (ymd2ord y m (days_in_month y m)) by lia.
    pose proof (ymd2ord_range y m (days_in_month y m)
                  ltac:(unfold MINYEAR, MAXYEAR in *; lia) Hm ltac:(lia)) as Hr.
    replace ((0 <? ymd2ord y m (days_in_month y m))
             && (ymd2ord y m (days_in_month y m) <=? MAXORDINAL))
      with true by (symmetry; apply andb_true_iff; lia).
    rewrite ord2ymd_ymd2ord by lia. reflexivity.
  - unfold toordinal; cbn [dt_year dt_month dt_day]. lia.
Qed.

Lemma last_day_then_first_day_witness :
  exists last_date first_date : datetime,
    get_target_date (mk_datetime 2024 11 20) "1L" 2 = Ok last_date /\
    get_target_date (mk_datetime 2024 11 20) "2F" 2 = Ok first_date /\
    add_days last_date 1 = Ok first_date /\
    sub_days first_date 1 = Ok last_date /\
    toordinal first_date = toordinal last_date + 1.
Proof.
  apply (last_day_then_first_day (mk_datetime 2024 11 20) 1 2024 12 2025 1 "1L" "2F").
  - split; [auto | split; reflexivity].
  - split; [auto | split; reflexivity].
  - rewrite get_adjusted_year_month_closed. reflexivity.
  - rewrite get_adjusted_year_month_closed. reflexivity.
  - unfold MINYEAR. lia.
  - unfold MAXYEAR. lia.
Defined.

(** ** [last_thursday] *)

(** X8: for a month of the years 1..9999, [last_thursday] returns a Thursday
    of that month, one of its last seven days, and no later day of the month
    is a Thursday. *)
Theorem last_thursday_is_the_last (year month : Z) :
  MINYEAR <= year <= MAXYEAR -> 1 <= month <= 12 ->
  exists t : datetime,
    last_thursday year month = Ok t /\
    (dt_year t, dt_month t) = (year, month) /\
    weekday t = 3 /\
    days_in_month year month - 7 < dt_day t <= days_in_month year month /\
    forall d : Z,
      dt_day t < d <= days_in_month year month ->
      weekday (mk_datetime year month d) <> 3.
Proof.
  intros Hy Hm.
  destruct (last_thursday_in_range year month Hy Hm) as [Hr Hw].
  set (last_day := days_in_month year month) in *.
  set (offset := (weekday (mk_datetime year month last_day) - 3) mod 7) in *.
  assert (Hoff : 0 <= offset < 7) by (subst offset; apply Z.mod_pos_bound; lia).
  exists (mk_datetime year month (last_day - offset)).
  cbn [dt_year dt_month dt_day].
  split; [exact Hr | split; [reflexivity | split; [exact Hw | split; [lia |]]]].
  intros d Hd Hthu.
  rewrite (weekday_of_day year month d) in Hthu.
  rewrite (weekday_of_day year month (last_day - offset)) in Hw.
  revert Hw Hthu. generalize (weekday (mk_datetime year month 1)). intros w Hw Hthu.
  Z.div_mod_to_equations. lia.
Qed.

Lemma last_thursday_is_the_last_witness :
  exists t : datetime,
    last_thursday 2024 2 = Ok t /\
    (dt_year t, dt_month t) = (2024, 2) /\
    weekday t = 3 /\
    days_in_month 2024 2 - 7 < dt_day t <= days_in_month 2024 2 /\
    forall d : Z,
      dt_day t < d <= days_in_month 2024 2 -> weekday (mk_datetime 2024 2 d) <> 3.
Proof.
  apply (last_thursday_is_the_last 2024 2); unfold MINYEAR, MAXYEAR; lia.
Defined.

Lemma year_error_by_size (y : Z) :
  (-2147483648 <= y <= 2147483647 -> year_error y = ValueError DateRangeMsg) /\
  (~ -2147483648 <= y <= 2147483647 -> year_error y = OverflowError).
Proof.
  unfold year_error. split; intros Hy.
  - now rewrite fits_c_int_small.
  - destruct (fits_c_int y) eqn:E; [| reflexivity].
    apply fits_c_int_iff in E. contradiction.
Qed.

(** X9: [last_thursday] fails exactly when the month is not in 1..12 or the
    year not in 1..9999.  A bad month is reported first, as the
    illegal-month error of [calendar]; then a bad year, as the range error
    of [datetime] when it fits a C [int] and as [OverflowError] when it does
    not. *)
Theorem last_thursday_failures (year month : Z) :
  (~ 1 <= month <= 12 ->
   last_thursday year month = Raise (ValueError IllegalMonthMsg)) /\
  (1 <= month <= 12 -> ~ MINYEAR <= year <= MAXYEAR ->
   (-2147483648 <= year <= 2147483647 ->
    last_thursday year month = Raise (ValueError DateRangeMsg)) /\
   (~ -2147483648 <= year <= 2147483647 ->
    last_thursday year month = Raise OverflowError)) /\
  (fails (last_thursday year month) <->
   ~ (1 <= month <= 12 /\ MINYEAR <= year <= MAXYEAR)).
Proof.
  assert (Hmonth : ~ 1 <= month <= 12 ->
            last_thursday year month = Raise (ValueError IllegalMonthMsg)).
  { intros Hm. unfold last_thursday, monthrange.
    replace ((1 <=? month) && (month <=? 12)) with false; [reflexivity |].
    symmetry. apply andb_false_iff. lia. }
  assert (Hyear : 1 <= month <= 12 -> ~ MINYEAR <= year <= MAXYEAR ->
            last_thursday year month = Raise (year_error year)).
  { intros Hm Hy. pose proof (days_in_month_bounds year month Hm) as Hdim.
    unfold last_thursday. rewrite monthrange_ok by assumption.
    cbn [bind]. rewrite datetime_new_year_error by lia. reflexivity. }
  destruct (year_error_by_size year) as [Hsmall Hlarge].
  split; [exact Hmonth | split].
  - intros Hm Hy. rewrite (Hyear Hm Hy).
    split; intros Hc; [now rewrite Hsmall | now rewrite Hlarge].
  - split.
    + intros [e He] [Hm Hy].
      destruct (last_thursday_in_range year month Hy Hm) as [Hr _]. congruence.
    + intros Hn.
      destruct (Z_le_dec 1 month) as [H1 | H1];
        [destruct (Z_le_dec month 12) as [H2 | H2] |];
        try (eexists; apply Hmonth; lia).
      eexists. apply Hyear; [lia |]. intros Hy. apply Hn. lia.
Qed.

Lemma last_thursday_failures_witness :
  last_thursday 2024 13 = Raise (ValueError IllegalMonthMsg) /\
  last_thursday 0 1 = Raise (ValueError DateRangeMsg) /\
  last_thursday 2147483648 1 = Raise OverflowError /\
  last_thursday 2147483648 13 = Raise (ValueError IllegalMonthMsg).
Proof.
  split; [| split; [| split]].
  - apply (proj1 (last_thursday_failures 2024 13)). lia.
  - apply (proj1 (proj2 (last_thursday_failures 0 1)));
      unfold MINYEAR, MAXYEAR; lia.
  - apply (proj1 (proj2 (last_thursday_failures 2147483648 1)));
      unfold MINYEAR, MAXYEAR; lia.
  - apply (proj1 (last_thursday_failures 2147483648 13)). lia.
Defined.

Lemma get_adjusted_year_month_zero (y m : Z) :
  1 <= m <= 12 -> get_adjusted_year_month y m 0 = (y, m).
Proof.
  intros Hm. rewrite get_adjusted_year_month_closed. unfold shift_closed_form.
  replace (m - 1 + 0) with (m - 1) by lia.
  rewrite Z.div_small, Z.mod_small by lia. f_equal; lia.
Qed.

(** X10: the two ways the file has of finding the last Thursday of a month
    agree: for every reference date, the pattern "0/4/L" of type 1 gives
    what [last_thursday] gives for the year and month of that date. *)
Theorem last_thursday_agrees_with_pattern (start_date : datetime) :
  valid_datetime start_date ->
  get_target_date start_date "0/4/L" 1 =
  last_thursday (dt_year start_date) (dt_month start_date).
Proof.
  intros [Hy [Hm _]].
  set (y := dt_year start_date) in *. set (m := dt_month start_date) in *.
  assert (Hp : type1_pattern "0/4/L" 0 4 "L").
  { exists "0"%string, "4"%string.
    split; [reflexivity |]. split; [reflexivity |]. split; [reflexivity |].
    split; [lia |]. cbn. auto. }
  pose proof (days_in_month_bounds y m Hm) as Hdim.
  destruct (select_target_day_shape y m 3 Hm ltac:(lia)) as [_ [_ [_ [SL _]]]].
  destruct (last_thursday_in_range y m Hy Hm) as [Hr _]. rewrite Hr.
  set (w := weekday (mk_datetime y m 1)) in *.
  assert (Heq : days_in_month y m - (weekday (mk_datetime y m (days_in_month y m)) - 3) mod 7
                = days_in_month y m - (w + days_in_month y m - 1 - 3) mod 7).
  { rewrite (weekday_of_day y m (days_in_month y m)). fold w.
    rewrite Zminus_mod_idemp_l. reflexivity. }
  rewrite Heq.
  apply (get_target_date_type1_day start_date "0/4/L" 0 4 "L" y m).
  - exact Hp.
  - apply get_adjusted_year_month_zero. exact Hm.
  - exact Hy.
  - exact SL.
  - pose proof (Z.mod_pos_bound (w + days_in_month y m - 1 - 3) 7). lia.
Qed.

Lemma last_thursday_agrees_with_pattern_witness :
  get_target_date (mk_datetime 2024 11 20) "0/4/L" 1 = last_thursday 2024 11 /\
  last_thursday 2024 11 = Ok (mk_datetime 2024 11 28).
Proof.
  split.
  - apply (last_thursday_agrees_with_pattern (mk_datetime 2024 11 20)).
    unfold valid_datetime, MINYEAR, MAXYEAR. cbn. lia.
  - vm_compute. reflexivity.
Defined.

(** ** [last_friday_of_previous_month] *)

Lemma get_adjusted_year_month_previous (y m : Z) :
  1 <= m <= 12 -> get_adjusted_year_month y m (-1) = previous_month y m.
Proof.
  intros Hm. rewrite get_adjusted_year_month_closed.
  unfold shift_closed_form, previous_month.
  destruct (Z.eqb_spec m 1) as [-> | Hne]; [reflexivity |].
  replace (m - 1 + -1) with (m - 2) by lia.
  rewrite Z.div_small, Z.mod_small by lia. f_equal; lia.
Qed.

Lemma last_friday_versus_pattern_in_range (start_date : datetime) :
  valid_datetime start_date ->
  let year := dt_year start_date in
  let month := dt_month start_date in
  let py := fst (previous_month year month) in
  let pm := snd (previous_month year month) in
  let month_end := mk_datetime py pm (days_in_month py pm) in
  MINYEAR <= py ->
  exists f : datetime,
    get_target_date start_date "-1/5/L" 1 = Ok f /\
    (dt_year f, dt_month f) = (py, pm) /\
    weekday f = 4 /\
    days_in_month py pm - 7 < dt_day f <= days_in_month py pm /\
    (weekday month_end <> 3 -> last_friday_of_previous_month year month = Ok f) /\
    (weekday month_end = 3 ->
     last_friday_of_previous_month year month = Ok (mk_datetime year month 1) /\
     toordinal (mk_datetime year month 1) = toordinal f + 7).
Proof.
  intros [Hy [Hm _]] year month py pm month_end Hlo.
  fold year in Hy. fold month in Hm.
  assert (Hprev : previous_month year month = (py, pm))
    by (subst py pm; now destruct (previous_month year month)).
  destruct (previous_month_month _ _ _ _ Hm Hprev) as [Hpm Hnext].
  assert (Hpy : MINYEAR <= py <= MAXYEAR).
  { split; [exact Hlo |]. unfold previous_month in Hprev.
    destruct (month =? 1); injection Hprev as <- _; lia. }
  assert (Hp : type1_pattern "-1/5/L" (-1) 5 "L").
  { exists "-1"%string, "5"%string.
    split; [reflexivity |]. split; [reflexivity |]. split; [reflexivity |].
    split; [lia |]. cbn. auto. }
  pose proof (days_in_month_bounds py pm Hpm) as Hdim.
  destruct (select_target_day_shape py pm 4 Hpm ltac:(lia)) as [_ [_ [_ [SL _]]]].
  set (L := days_in_month py pm) in *.
  set (w := weekday (mk_datetime py pm 1)) in *.
  set (final := L - (w + L - 1 - 4) mod 7) in *.
  assert (Hw : 0 <= w <= 6) by (subst w; apply weekday_range).
  assert (Hfinal : L - 7 < final <= L)
    by (subst final; pose proof (Z.mod_pos_bound (w + L - 1 - 4) 7); lia).
  assert (Hend : weekday month_end = (w + L - 1) mod 7)
    by (subst month_end; apply weekday_of_day).
  assert (Hget : get_target_date start_date "-1/5/L" 1 = Ok (mk_datetime py pm final)).
  { apply (get_target_date_type1_day start_date "-1/5/L" (-1) 5 "L" py pm).
    - exact Hp.
    - fold year month. rewrite get_adjusted_year_month_previous by assumption.
      exact Hprev.
    - exact Hpy.
    - exact SL.
    - lia. }
  destruct (last_friday_in_range year month py pm Hm Hprev Hpy) as [Hfri _].
  fold L in Hfri. fold month_end in Hfri. rewrite Hend in Hfri.
  exists (mk_datetime py pm final). cbn [dt_year dt_month dt_day].
  split; [exact Hget | split; [reflexivity | split; [| split; [exact Hfinal | split]]]].
  - rewrite (weekday_of_day py pm final). fold w. subst final.
    Z.div_mod_to_equations. lia.
  - intros Hne. rewrite Hend in Hne. rewrite Hfri.
    destruct (Z.eqb_spec (((w + L - 1) mod 7 - 3) mod 7) 0) as [Hz | Hnz].
    + exfalso. revert Hz Hne. Z.div_mod_to_equations. lia.
    + f_equal. f_equal. subst final. revert Hnz. Z.div_mod_to_equations. lia.
  - intros He. rewrite Hend in He. rewrite Hfri.
    destruct (Z.eqb_spec (((w + L - 1) mod 7 - 3) mod 7) 0) as [Hz | Hnz].
    + split; [reflexivity |].
      pose proof (ymd2ord_next_month py pm Hpm) as Hord. rewrite Hnext in Hord.
      fold L in Hord. unfold toordinal; cbn [dt_year dt_month dt_day].
      rewrite <- Hord. unfold ymd2ord. subst final.
      revert He. Z.div_mod_to_equations. lia.
    + exfalso. revert Hnz He. Z.div_mod_to_equations. lia.
Qed.

(** X11: for a reference date whose previous month lies in the years
    1..9999, that is every date but those of January of year 1, the pattern
    "-1/5/L" of type 1 gives the last Friday of the previous month;
    [last_friday_of_previous_month] gives the same date when that month does
    not end on a Thursday, and otherwise the Friday seven days later, day 1
    of the month it was called with.  For a reference date in January of
    year 1 both calls raise the range error of [datetime]. *)
Theorem last_friday_versus_pattern (start_date : datetime) :
  valid_datetime start_date ->
  let year := dt_year start_date in
  let month := dt_month start_date in
  let py := fst (previous_month year month) in
  let pm := snd (previous_month year month) in
  let month_end := mk_datetime py pm (days_in_month py pm) in
  (MINYEAR <= py <-> ~ (year = 1 /\ month = 1)) /\
  (MINYEAR <= py ->
   exists f : datetime,
     get_target_date start_date "-1/5/L" 1 = Ok f /\
     (dt_year f, dt_month f) = (py, pm) /\
     weekday f = 4 /\
     days_in_month py pm - 7 < dt_day f <= days_in_month py pm /\
     (weekday month_end <> 3 -> last_friday_of_previous_month year month = Ok f) /\
     (weekday month_end = 3 ->
      last_friday_of_previous_month year month = Ok (mk_datetime year month 1) /\
      toordinal (mk_datetime year month 1) = toordinal f + 7)) /\
  (~ MINYEAR <= py ->
   get_target_date start_date "-1/5/L" 1 = Raise (ValueError DateRangeMsg) /\
   last_friday_of_previous_month year month = Raise (ValueError DateRangeMsg)).
Proof.
  intros Hv year month py pm month_end.
  pose proof (last_friday_versus_pattern_in_range start_date Hv) as Hin.
  cbv zeta in Hin. fold year month in Hin. fold py pm in Hin. fold month_end in Hin.
  destruct Hv as [Hy [Hm _]]. fold year in Hy. fold month in Hm.
  assert (Hprev : previous_month year month = (py, pm))
    by (subst py pm; now destruct (previous_month year month)).
  assert (Hpy : py = if month =? 1 then year - 1 else year).
  { unfold previous_month in Hprev.
    destruct (month =? 1); now injection Hprev as <- _. }
  split; [| split; [exact Hin |]].
  - rewrite Hpy. unfold MINYEAR in *.
    destruct (Z.eqb_spec month 1); lia.
  - intros Hlo.
    assert (Hout : ~ MINYEAR <= py <= MAXYEAR) by lia.
    assert (Hsmall : year_error py = ValueError DateRangeMsg).
    { apply year_error_by_size. rewrite Hpy. unfold MINYEAR, MAXYEAR in *.
      destruct (month =? 1); lia. }
    assert (Hp : type1_pattern "-1/5/L" (-1) 5 "L").
    { exists "-1"%string, "5"%string.
      split; [reflexivity |]. split; [reflexivity |]. split; [reflexivity |].
      split; [lia |]. cbn. auto. }
    assert (Hs : get_adjusted_year_month (dt_year start_date) (dt_month start_date) (-1)
                 = (py, pm)).
    { fold year month. rewrite get_adjusted_year_month_previous by assumption.
      exact Hprev. }
    destruct (get_target_date_type1_total _ _ _ _ _ _ _ Hp Hs) as [_ Hfail].
    split.
    + rewrite (Hfail Hout). now rewrite Hsmall.
    + rewrite (last_friday_out_of_range _ _ _ _ Hm Hprev Hout). now rewrite Hsmall.
Qed.

Lemma last_friday_versus_pattern_witness :
  exists f : datetime,
    get_target_date (mk_datetime 2024 11 20) "-1/5/L" 1 = Ok f /\
    f = mk_datetime 2024 10 25 /\
    last_friday_of_previous_month 2024 11 = Ok (mk_datetime 2024 11 1) /\
    toordinal (mk_datetime 2024 11 1) = toordinal f + 7.
Proof.
  destruct (last_friday_versus_pattern (mk_datetime 2024 11 20)) as [_ [Hin _]].
  { unfold valid_datetime, MINYEAR, MAXYEAR. cbn. lia. }
  destruct Hin as [f [Hf [_ [_ [_ [_ Hthu]]]]]].
  - unfold MINYEAR. cbn. lia.
  - exists f. split; [exact Hf |].
    assert (Heq : f = mk_datetime 2024 10 25).
    { vm_compute in Hf. now injection Hf as <-. }
    split; [exact Heq |]. apply Hthu. vm_compute. reflexivity.
Defined.

(** X12: the months [last_friday_of_previous_month] accepts.  A month below
    1 or above 13 is refused with the illegal-month error of [calendar];
    month 13 is taken as January of the next year; for a month in 1..12 the
    call fails exactly when the previous month lies outside the years
    1..9999, with the range error of [datetime] when that year fits a C
    [int] and with [OverflowError] when it does not. *)
Theorem last_friday_of_previous_month_edges (year month : Z) :
  (month <= 0 \/ 14 <= month ->
   last_friday_of_previous_month year month = Raise (ValueError IllegalMonthMsg)) /\
  last_friday_of_previous_month year 13 = last_friday_of_previous_month (year + 1) 1 /\
  (1 <= month <= 12 ->
   (fails (last_friday_of_previous_month year month) <->
    ~ MINYEAR <= fst (previous_month year month) <= MAXYEAR) /\
   (fails (last_friday_of_previous_month year month) ->
    (-2147483648 <= fst (previous_month year month) <= 2147483647 ->
     last_friday_of_previous_month year month = Raise (ValueError DateRangeMsg)) /\
    (~ -2147483648 <= fst (previous_month year month) <= 2147483647 ->
     last_friday_of_previous_month year month = Raise OverflowError))).
Proof.
  split; [| split].
  - intros Hm. unfold last_friday_of_previous_month.
    destruct (Z.eqb_spec month 1); [lia |]. unfold monthrange.
    replace ((1 <=? month - 1) && (month - 1 <=? 12)) with false; [reflexivity |].
    symmetry. apply andb_false_iff. lia.
  - unfold last_friday_of_previous_month.
    change (13 =? 1) with false. change (1 =? 1) with true. cbv iota.
    change (13 - 1) with 12. replace (year + 1 - 1) with year by lia. reflexivity.
  - intros Hm.
    assert (Hprev : previous_month year month
                    = (fst (previous_month year month), snd (previous_month year month)))
      by now destruct (previous_month year month).
    assert (Hiff : fails (last_friday_of_previous_month year month) <->
                   ~ MINYEAR <= fst (previous_month year month) <= MAXYEAR).
    { split.
      - intros [e He] Hy.
        destruct (last_friday_in_range _ _ _ _ Hm Hprev Hy) as [Hr _]. congruence.
      - intros Hy. eexists. exact (last_friday_out_of_range _ _ _ _ Hm Hprev Hy). }
    split; [exact Hiff |].
    intros Hf. apply Hiff in Hf.
    rewrite (last_friday_out_of_range _ _ _ _ Hm Hprev Hf).
    destruct (year_error_by_size (fst (previous_month year month))) as [Hsmall Hlarge].
    split; intros Hc; [now rewrite Hsmall | now rewrite Hlarge].
Qed.

Lemma last_friday_of_previous_month_edges_witness :
  last_friday_of_previous_month 2024 0 = Raise (ValueError IllegalMonthMsg) /\
  last_friday_of_previous_month 2024 13 = last_friday_of_previous_month 2025 1 /\
  last_friday_of_previous_month 1 1 = Raise (ValueError DateRangeMsg) /\
  fails (last_friday_of_previous_month 10000 2) /\
  last_friday_of_previous_month 2147483648 2 = Raise OverflowError.
Proof.
  split; [| split; [| split; [| split]]].
  - apply (proj1 (last_friday_of_previous_month_edges 2024 0)). lia.
  - exact (proj1 (proj2 (last_friday_of_previous_month_edges 2024 13))).
  - destruct (last_friday_of_previous_month_edges 1 1) as [_ [_ H]].
    destruct (H ltac:(lia)) as [Hiff Hmsg].
    assert (Hf : fails (last_friday_of_previous_month 1 1))
      by (apply Hiff; unfold MINYEAR; cbn; lia).
    apply (proj1 (Hmsg Hf)). cbn. lia.
  - destruct (last_friday_of_previous_month_edges 10000 2) as [_ [_ H]].
    destruct (H ltac:(lia)) as [Hiff _]. apply Hiff.
    unfold MAXYEAR. cbn. lia.
  - destruct (last_friday_of_previous_month_edges 2147483648 2) as [_ [_ H]].
    destruct (H ltac:(lia)) as [Hiff Hmsg].
    assert (Hf : fails (last_friday_of_previous_month 2147483648 2))
      by (apply Hiff; unfold MAXYEAR; cbn; lia).
    apply (proj2 (Hmsg Hf)). cbn. lia.
Defined.

(** ** [get_data]: which reader is called *)

Lemma split_not_nil (sep : ascii) (s : string) : split sep s <> [].
Proof.
  destruct s as [| c s]; cbn [split]; [discriminate |].
  destruct (Ascii.eqb c sep); [discriminate |].
  destruct (split sep s); discriminate.
Qed.

Lemma split_app_sep (sep : ascii) (a b : string) :
  split sep (a ++ String sep b) = split sep a ++ split sep b.
Proof.
  induction a as [| c a IH]; cbn [append split].
  - rewrite Ascii.eqb_refl. reflexivity.
  - destruct (Ascii.eqb c sep); [now rewrite IH |].
    rewrite IH. pose proof (split_not_nil sep a) as Hne.
    destruct (split sep a) as [| w ws]; [congruence | reflexivity].
Qed.

(** A text is its only field, or it ends in the separator followed by its
    last field. *)
Lemma split_last_field (sep : ascii) (s : string) :
  split sep s = [s] \/
  ((2 <= List.length (split sep s))%nat /\
   exists stem, s = (stem ++ String sep (last (split sep s) EmptyString))%string).
Proof.
  induction s as [| c s IH]; [left; reflexivity |].
  cbn [split]. pose proof (split_not_nil sep s) as Hne.
  destruct (Ascii.eqb_spec c sep) as [-> | Hc].
  - right. split; [destruct (split sep s); [congruence | cbn; lia] |].
    replace (last (EmptyString :: split sep s) EmptyString)
      with (last (split sep s) EmptyString)
      by (destruct (split sep s); [congruence | reflexivity]).
    destruct IH as [Hone | [_ [stem Hs]]].
    + exists EmptyString. rewrite Hone. reflexivity.
    + exists (String sep stem). cbn [append]. now rewrite <- Hs.
  - destruct IH as [Hone | [Hlen [stem Hs]]].
    + left. rewrite Hone. reflexivity.
    + right. destruct (split sep s) as [| w [| w' ws]]; cbn in Hlen; try lia.
      split; [cbn; lia |].
      exists (String c stem). cbn [append].
      change (last (String c w :: w' :: ws) EmptyString)
        with (last (w :: w' :: ws) EmptyString).
      now rewrite <- Hs.
Qed.

Lemma getitem_str_last (l : list string) :
  l <> [] -> getitem_str l (-1) = inl (last l EmptyString).
Proof.
  intros Hne. unfold getitem_str.
  assert (0 < List.length l)%nat by (destruct l; [congruence | cbn; lia]).
  change (-1 <? 0) with true. cbv iota.
  replace ((0 <=? -1 + Z.of_nat (List.length l)) &&
           (-1 + Z.of_nat (List.length l) <? Z.of_nat (List.length l))) with true
    by (symmetry; apply andb_true_iff; lia).
  replace (Z.to_nat (-1 + Z.of_nat (List.length l))) with (Nat.pred (List.length l))
    by lia.
  f_equal. clear H. induction l as [| x l IH]; [congruence |].
  destruct l as [| y l']; [reflexivity |].
  change (nth (List.length (y :: l')) (x :: y :: l') EmptyString
          = last (y :: l') EmptyString).
  rewrite <- IH by discriminate. reflexivity.
Qed.

(** The text after the last dot is [ext] exactly for the file names with
    that extension, [ext] being free of dots. *)
Lemma file_extension_iff (file ext : string) :
  split "." ext = [ext] ->
  (last (split "." file) EmptyString = ext <-> has_extension file ext).
Proof.
  intros Hext. unfold has_extension. split.
  - intros Hlast. destruct (split_last_field "." file) as [Hone | [_ [stem Hs]]].
    + left. rewrite Hone in Hlast. exact Hlast.
    + right. exists stem. rewrite Hlast in Hs. exact Hs.
  - intros [-> | [stem ->]].
    + now rewrite Hext.
    + change (stem ++ "." ++ ext)%string with (stem ++ String "." ext)%string.
      rewrite split_app_sep, Hext. apply last_last.
Qed.

(** X13: [get_data] picks its reader by the text after the last dot of the
    file name, compared as it is: [read_pickle], [read_csv] or [read_excel]
    exactly for the names that are "pkl", "csv" or "xlsx" or end in a dot
    followed by one of them.  For every other name no reader is called and
    the first use of [df] raises [UnboundLocalError]; taking the last field
    of the split never fails. *)
Theorem get_data_reader_by_extension (file : string) :
  get_data_reader file <> inr SplitIndexError /\
  (get_data_reader file = inl read_pickle <-> has_extension file "pkl") /\
  (get_data_reader file = inl read_csv <-> has_extension file "csv") /\
  (get_data_reader file = inl read_excel <-> has_extension file "xlsx") /\
  (get_data_reader file = inr UnboundLocalError <->
   ~ has_extension file "pkl" /\ ~ has_extension file "csv" /\
   ~ has_extension file "xlsx").
Proof.
  pose proof (file_extension_iff file "pkl" eq_refl) as Hpkl.
  pose proof (file_extension_iff file "csv" eq_refl) as Hcsv.
  pose proof (file_extension_iff file "xlsx" eq_refl) as Hxlsx.
  unfold get_data_reader.
  rewrite (getitem_str_last _ (split_not_nil "." file)).
  set (ext := last (split "." file) EmptyString) in *.
  destruct (String.eqb_spec ext "pkl") as [Ep | Ep];
    [| destruct (String.eqb_spec ext "csv") as [Ec | Ec];
       [| destruct (String.eqb_spec ext "xlsx") as [Ex | Ex]]].
  - assert (ext <> "csv"%string /\ ext <> "xlsx"%string) as [Ec Ex]
      by (rewrite Ep; split; discriminate).
    repeat split; try discriminate; try tauto.
  - assert (Ex : ext <> "xlsx"%string) by (rewrite Ec; discriminate).
    repeat split; try discriminate; try tauto.
  - repeat split; try discriminate; try tauto.
  - repeat split; try discriminate; try tauto.
Qed.

Lemma get_data_reader_by_extension_witness :
  get_data_reader "prices.csv" = inl read_csv /\
  get_data_reader "csv" = inl read_csv /\
  get_data_reader "old.csv.pkl" = inl read_pickle /\
  ~ has_extension "prices.CSV" "csv".
Proof.
  split; [| split; [| split]].
  - apply (proj1 (proj2 (proj2 (get_data_reader_by_extension "prices.csv")))).
    right. exists "prices"%string. reflexivity.
  - apply (proj1 (proj2 (proj2 (get_data_reader_by_extension "csv")))).
    left. reflexivity.
  - apply (proj1 (proj2 (get_data_reader_by_extension "old.csv.pkl"))).
    right. exists "old.csv"%string. reflexivity.
  - destruct (get_data_reader_by_extension "prices.CSV") as [_ [_ [_ [_ Hnone]]]].
    assert (Hr : get_data_reader "prices.CSV" = inr UnboundLocalError)
      by (vm_compute; reflexivity).
    apply Hnone in Hr. tauto.
Defined.

(** ** What a returned date looks like *)

(** X14: read off the result alone, with nothing assumed about the pattern:
    a date returned for query type 1 is never a Saturday or Sunday, a date
    returned for query type 2 is the first or the last day of its month, and
    in both cases its month is the reference month moved by some whole
    number of months. *)
Theorem get_target_date_returned_date
    (start_date : datetime) (pattern : string) (d : datetime) :
  (get_target_date start_date pattern 1 = Ok d ->
   0 <= weekday d <= 4 /\
   exists month_offset,
     get_adjusted_year_month (dt_year start_date) (dt_month start_date) month_offset
       = (dt_year d, dt_month d)) /\
  (get_target_date start_date pattern 2 = Ok d ->
   (dt_day d = 1 \/ dt_day d = days_in_month (dt_year d) (dt_month d)) /\
   exists month_offset,
     get_adjusted_year_month (dt_year start_date) (dt_month start_date) month_offset
       = (dt_year d, dt_month d)).
Proof.
  split; intros Hr.
  - destruct (parse_type1 pattern) as [v | e] eqn:Hp;
      [| rewrite (get_target_date_type1_parse_error _ _ Hp) in Hr; discriminate].
    apply parse_type1_ok_inv in Hp as [off [wd [w [_ Hp]]]].
    destruct (get_adjusted_year_month (dt_year start_date) (dt_month start_date) off)
      as [y m] eqn:Hs.
    assert (Hm := get_adjusted_year_month_month _ _ _ _ _ Hs).
    rewrite (get_target_date_type1 _ _ _ _ _ _ _ Hp Hs) in Hr.
    destruct (datetime_new y m 1) as [tm | e] eqn:Hnew; [| discriminate].
    cbn [bind] in Hr.
    assert (Hy : MINYEAR <= y <= MAXYEAR)
      by exact (datetime_new_Ok_year _ _ _ _ Hnew).
    pose proof (days_in_month_bounds y m Hm) as Hdim.
    rewrite datetime_new_ok in Hnew by lia. injection Hnew as <-.
    destruct Hp as [a [b [_ [_ [_ [Hwd Hw]]]]]].
    assert (Hv : valid_datetime (mk_datetime y m 1))
      by (unfold valid_datetime; cbn [dt_year dt_month dt_day]; lia).
    destruct (resolve_type1_ok _ (wd - 1) w Hv ltac:(lia) Hw) as [day [Hres Hin]].
    cbn [dt_year dt_month] in Hres, Hin.
    rewrite Hres in Hr. injection Hr as <-.
    apply weekday_days_In in Hin as [_ Hwk].
    cbn [dt_year dt_month]. split; [lia | exists off; exact Hs].
  - destruct (parse_type2 pattern) as [v | e] eqn:Hp;
      [| rewrite (get_target_date_type2_parse_error _ _ Hp) in Hr; discriminate].
    apply parse_type2_ok_inv in Hp as [off [edge [_ Hp]]].
    destruct (get_adjusted_year_month (dt_year start_date) (dt_month start_date) off)
      as [y m] eqn:Hs.
    assert (Hm := get_adjusted_year_month_month _ _ _ _ _ Hs).
    pose proof (days_in_month_bounds y m Hm) as Hdim.
    rewrite (get_target_date_type2 _ _ _ _ _ _ Hp Hs) in Hr.
    assert (Hy : MINYEAR <= y <= MAXYEAR)
      by (destruct (Ascii.eqb edge "F"); exact (datetime_new_Ok_year _ _ _ _ Hr)).
    destruct (Ascii.eqb edge "F"); rewrite datetime_new_ok in Hr by lia;
      injection Hr as <-; cbn [dt_year dt_month dt_day];
      (split; [auto | exists off; exact Hs]).
Qed.
